(** * Benchmark helpers of boosting.ipynb: [score_and_time] and [ml_benchmark]

    Shallow embedding of the two Python functions of the notebook and of the
    cross-dataset aggregation cell.  Numbers computed by numpy/pandas are
    modelled as real numbers; the external scikit-learn / xgboost
    cross-validation routine is a parameter ([cv_oracle]).  Python state
    (heap of objects, process clock, numpy's global random generator, stdout)
    is threaded explicitly through a state-and-exception monad in which,
    as in Python, the effects performed before an exception survive it. *)

From Stdlib Require Import Reals Lra Lia ZArith List String Bool Permutation Sorted.
Import ListNotations.
Open Scope string_scope.
Open Scope R_scope.

(** ** Rounding *)

(** Round half to even of a real to an integer: the rounding rule of
    Python's [round] and of [datetime.timedelta] (at microseconds). *)
Definition round_half_even (x : R) : Z :=
  let f := Int_part x in
  let d := x - IZR f in
  if Rlt_dec d (1/2) then f
  else if Rlt_dec (1/2) d then (f + 1)%Z
  else if Z.even f then f else (f + 1)%Z.

(** [round(x, 3)] *)
Definition round3 (x : R) : R := IZR (round_half_even (x * 1000)) / 1000.

(** [datetime.timedelta(seconds=x)], seen through its total number of
    seconds: the constructor keeps whole microseconds, rounding half to
    even. *)
Definition timedelta_seconds (x : R) : R :=
  IZR (round_half_even (x * 1000000)) / 1000000.

(** ** numpy reductions over the fold scores *)

Definition np_sum (l : list R) : R := fold_right Rplus 0 l.

(** [scores.mean()] *)
Definition np_mean (l : list R) : R := np_sum l / INR (List.length l).

(** [scores.std()]: numpy's default [ddof=0], the population standard
    deviation. *)
Definition np_std (l : list R) : R :=
  let m := np_mean l in
  sqrt (np_sum (map (fun x => (x - m) * (x - m)) l) / INR (List.length l)).

(** The sample standard deviation ([ddof=1]), the statistic named by the
    specification for the spread; not used by the code. *)
Definition sample_std (l : list R) : R :=
  let m := np_mean l in
  sqrt (np_sum (map (fun x => (x - m) * (x - m)) l) / (INR (List.length l) - 1)).

(** ** Python values, heap and interpreter state *)

Definition loc := nat.

(** The objects the two functions receive: a 2-D float array
    ([X_dataset]) and a 1-D integer label array ([y_dataset]). *)
Inductive pyval :=
| PyMatrix (rows : list (list R))
| PyLabels (ys : list Z).

(** scikit-learn / xgboost estimators as constructed in the notebook;
    [None] stands for an argument left at its default. *)
Inductive estimator :=
| DecisionTreeClassifier (max_depth : option nat) (random_state : option Z)
| RandomForestClassifier (n_estimators : nat) (max_depth : option nat)
    (random_state : option Z)
| AdaBoostClassifier (base : estimator) (n_estimators : nat)
    (algorithm : string) (random_state : option Z)
| GradientBoostingClassifier (n_estimators : nat) (max_depth : option nat)
    (random_state : option Z)
| XGBClassifier (n_estimators : nat) (max_depth : option nat)
    (random_state : option Z).

(** The [random_state] argument of the outermost estimator (AdaBoost
    passes its own to its base trees). *)
Definition random_state (e : estimator) : option Z :=
  match e with
  | DecisionTreeClassifier _ r | RandomForestClassifier _ _ r
  | AdaBoostClassifier _ _ _ r | GradientBoostingClassifier _ _ r
  | XGBClassifier _ _ r => r
  end.

Inductive exn :=
| TypeError
| AttributeError
| ValueError (msg : string).

(** Lines written by [print]. *)
Inductive line :=
| ShapeLine (what : string) (dims : list nat)
| SetLine (what : string) (values : list Z).

(** A call of [model_selection.cross_val_score(model, X, y, cv=cv)]
    (recorded as ghost state). *)
Record call := Call { c_model : estimator; c_X : loc; c_y : loc; c_cv : nat }.

Record state := mkState {
  heap : loc -> option pyval;
  clock : R;            (* value read by time.process_time() *)
  np_random : Z;        (* numpy's global RandomState *)
  stdout : list line;
  calls : list call     (* ghost: external cross-validation calls *)
}.

(** ** State-and-exception monad *)

Definition M (A : Type) : Type := state -> (exn + A) * state.

Definition ret {A} (a : A) : M A := fun s => (inr a, s).
Definition raise {A} (e : exn) : M A := fun s => (inl e, s).
Definition bind {A B} (m : M A) (k : A -> M B) : M B :=
  fun s => match m s with
           | (inl e, s') => (inl e, s')
           | (inr a, s') => k a s'
           end.

Notation "x <- m ;; k" := (bind m (fun x => k))
  (at level 61, m at next level, right associativity).
Notation "m ;;; k" := (bind m (fun _ => k))
  (at level 61, right associativity).

(** ** Builtins used by the two functions *)

Definition update_stdout (s : state) (o : list line) : state :=
  mkState (heap s) (clock s) (np_random s) o (calls s).

Definition print (ln : line) : M unit :=
  fun s => (inr tt, update_stdout s (stdout s ++ [ln])%list).

(** Reading a variable bound to a heap object. *)
Definition load (x : loc) : M pyval :=
  fun s => match heap s x with
           | Some v => (inr v, s)
           | None => (inl TypeError, s)
           end.

(** [.shape] of a numpy array. *)
Definition shape (v : pyval) : list nat :=
  match v with
  | PyMatrix rows => [List.length rows; List.length (hd [] rows)]
  | PyLabels ys => [List.length ys]
  end.

(** [set(y)]: the distinct labels. Iterating a 2-D array yields its rows,
    which are unhashable arrays: a 2-D array with at least one row raises
    TypeError, one with no rows gives the empty set. *)
Definition py_set (v : pyval) : M (list Z) :=
  match v with
  | PyLabels ys => ret (nodup Z.eq_dec ys)
  | PyMatrix [] => ret []
  | PyMatrix (_ :: _) => raise TypeError
  end.

(** [time.process_time()] *)
Definition process_time : M R := fun s => (inr (clock s), s).

(** The row [part_l] built by [score_and_time]:
    [[round(mean, 3), round(std*2, 3), timedelta]]. *)
Record part_l := mk_part_l {
  mean_of_scores : R;
  variance_of_scores : R;   (* column 'Approx. variance of scores' *)
  processing_time : R       (* the timedelta, in seconds *)
}.

(** [pd.DataFrame(l, index=rows_name, columns=columns_name)] *)
Record frame := mk_frame {
  index : list string;
  columns : list string;
  data : list part_l
}.

Definition DataFrame (l : list part_l) (idx cols : list string) : M frame :=
  if Nat.eqb (List.length l) (List.length idx) && Nat.eqb (List.length cols) 3
  then ret (mk_frame idx cols l)
  else raise (ValueError "Shape of passed values does not match indices").

Definition rows_name : list string :=
  ["DecisionTreeClassifier"; "RandomForestClassifier"; "AdaBoostClassifier";
   "GradientBoostingClassifier"; "XGBoost"].

Definition columns_name : list string :=
  ["Approx. mean of scores"; "Approx. variance of scores"; "Processing time"].

(** The five estimators of [ml_benchmark], in the order of the code. *)
Definition model_dt : estimator := DecisionTreeClassifier None (Some 0%Z).
Definition model_rf : estimator := RandomForestClassifier 50 (Some 2%nat) (Some 0%Z).
Definition model_ada : estimator :=
  AdaBoostClassifier (DecisionTreeClassifier (Some 2%nat) None) 50 "SAMME" (Some 0%Z).
Definition model_gb : estimator := GradientBoostingClassifier 50 (Some 2%nat) None.
Definition model_xgb : estimator := XGBClassifier 50 (Some 2%nat) (Some 0%Z).

Definition roster : list estimator := [model_dt; model_rf; model_ada; model_gb; model_xgb].

(** Result of the external cross-validation: the fold scores, the CPU
    time it consumed, and numpy's global generator afterwards. *)
Definition cv_oracle : Type :=
  estimator -> list (list R) -> list Z -> nat -> Z -> exn + (list R * R * Z).

Section Benchmark.

(** [sklearn.model_selection.cross_val_score], external to the repository. *)
Variable cross_val_oracle : cv_oracle.

Definition record_call (c : call) (s : state) : state :=
  mkState (heap s) (clock s) (np_random s) (stdout s) (calls s ++ [c])%list.

Definition after_cv (s : state) (cost : R) (r : Z) : state :=
  mkState (heap s) (clock s + cost) r (stdout s) (calls s).

(** [model_selection.cross_val_score(model, X_dataset, y_dataset, cv=cv)]:
    the library reads the two arrays it is given (it indexes copies of
    them) and advances the process clock and, for an estimator without a
    seed, numpy's global generator. *)
Definition cross_val_score (model : estimator) (X_dataset y_dataset : loc)
    (cv : nat) : M (list R) :=
  fun s0 =>
    let s := record_call (Call model X_dataset y_dataset cv) s0 in
    match heap s X_dataset, heap s y_dataset with
    | Some (PyMatrix xs), Some (PyLabels ys) =>
        match cross_val_oracle model xs ys cv (np_random s) with
        | inl e => (inl e, s)
        | inr (scores, cost, r) => (inr scores, after_cv s cost r)
        end
    | _, _ => (inl TypeError, s)
    end.

Definition score_and_time (model : estimator) (X_dataset y_dataset : loc)
    (cv : nat) : M part_l :=
  t_start <- process_time ;;
  scores <- cross_val_score model X_dataset y_dataset cv ;;
  t_stop <- process_time ;;
  let part_l := mk_part_l (round3 (np_mean scores))
                          (round3 (np_std scores * 2))
                          (timedelta_seconds (t_stop - t_start)) in
  ret part_l.

Definition ml_benchmark (X_dataset y_dataset : loc) (cv : nat) : M frame :=
  vX <- load X_dataset ;;
  print (ShapeLine "The shape of X_dataset is:" (shape vX)) ;;;
  vy <- load y_dataset ;;
  print (ShapeLine "The shape of y_dataset is:" (shape vy)) ;;;
  labels <- py_set vy ;;
  print (SetLine "The set of values of y_dataset is:" labels) ;;;
  let l : list part_l := [] in
  let model := DecisionTreeClassifier None (Some 0%Z) in
  r1 <- score_and_time model X_dataset y_dataset cv ;;
  let l := (l ++ [r1])%list in
  let model := RandomForestClassifier 50 (Some 2%nat) (Some 0%Z) in
  r2 <- score_and_time model X_dataset y_dataset cv ;;
  let l := (l ++ [r2])%list in
  let model := AdaBoostClassifier (DecisionTreeClassifier (Some 2%nat) None)
                 50 "SAMME" (Some 0%Z) in
  r3 <- score_and_time model X_dataset y_dataset cv ;;
  let l := (l ++ [r3])%list in
  let model := GradientBoostingClassifier 50 (Some 2%nat) None in
  r4 <- score_and_time model X_dataset y_dataset cv ;;
  let l := (l ++ [r4])%list in
  let model := XGBClassifier 50 (Some 2%nat) (Some 0%Z) in
  r5 <- score_and_time model X_dataset y_dataset cv ;;
  let l := (l ++ [r5])%list in
  out <- DataFrame l rows_name columns_name ;;
  ret out.

End Benchmark.

(** ** Concrete inputs *)

(** A heap holding a 4x1 feature array at location 0 and its labels at
    location 1. *)
Definition heap0 (x : loc) : option pyval :=
  match x with
  | 0%nat => Some (PyMatrix [[1]; [2]; [3]; [4]])
  | 1%nat => Some (PyLabels [0; 0; 1; 1]%Z)
  | _ => None
  end.

Definition state0 : state := mkState heap0 0 0 [] [].

(** A cross-validation result that ignores its inputs. *)
Definition fixed_oracle (scores : list R) (cost : R) : cv_oracle :=
  fun _ _ _ _ r => inr (scores, cost, r).

(** ** The benchmark as a loop over the roster *)

Fixpoint mapM {A B} (f : A -> M B) (l : list A) : M (list B) :=
  match l with
  | [] => ret []
  | x :: l' => y <- f x ;; ys <- mapM f l' ;; ret (y :: ys)
  end.

(** The three diagnostic prints at the top of [ml_benchmark]. *)
Definition benchmark_preamble (X_dataset y_dataset : loc) : M unit :=
  vX <- load X_dataset ;;
  print (ShapeLine "The shape of X_dataset is:" (shape vX)) ;;;
  vy <- load y_dataset ;;
  print (ShapeLine "The shape of y_dataset is:" (shape vy)) ;;;
  labels <- py_set vy ;;
  print (SetLine "The set of values of y_dataset is:" labels).

(** Two successive calls of [ml_benchmark] in one session. *)
Definition ml_benchmark_twice (o : cv_oracle) (X_dataset y_dataset : loc) (cv : nat)
    : M (frame * frame) :=
  df1 <- ml_benchmark o X_dataset y_dataset cv ;;
  df2 <- ml_benchmark o X_dataset y_dataset cv ;;
  ret (df1, df2).

(** The cross-validation does not depend on numpy's global generator for
    an estimator given a seed. *)
Definition seed_respecting (o : cv_oracle) : Prop :=
  forall model xs ys cv r1 r2 seed,
    random_state model = Some seed ->
    match o model xs ys cv r1, o model xs ys cv r2 with
    | inr (sc1, _, _), inr (sc2, _, _) => sc1 = sc2
    | inl e1, inl e2 => e1 = e2
    | _, _ => False
    end.

(** A cross-validation raising on the gradient-boosting entry. *)
Definition failing_oracle : cv_oracle :=
  fun model _ _ cv r =>
    match model with
    | GradientBoostingClassifier _ _ _ =>
        inl (ValueError "n_splits cannot be greater than the number of members in each class")
    | _ => inr (repeat 1 cv, 1, r)
    end.

(** ** A cross-validation model for data with tied splits

    A model of [cross_val_score] detailed enough to show how the result
    depends on numpy's global generator.  The folds are those of
    scikit-learn's [StratifiedKFold(n_splits=cv)] (no shuffling), which
    [cross_val_score] uses for a classifier and an integer [cv], and the
    score is the accuracy on the test fold.  The estimator fitted on a
    training fold is summarised by a decision stump: when one feature alone
    separates the two classes of the training fold, every tree of
    scikit-learn's learners splits on such a feature, all of them being
    equally good splits (a tie), and the fitted estimator predicts as that
    split does.  Which of the tied features is used depends on the order in
    which the splitter visits the features, drawn from the estimator's
    [random_state]: from its seed when it has one, otherwise from numpy's
    global generator, which the draw advances.  The draws made while
    fitting on a fold are summarised by one draw, and the generator's
    sequence by a linear congruential generator: its values are not
    numpy's, the dependence on the generator's state is the same.  A
    training fold that no single feature separates is outside the model;
    the fitted estimator then predicts the label of the first training
    sample. *)

(** One step of the generator and a draw among [n] candidates. *)
Definition lcg_draw (r : Z) : Z := ((1103515245 * r + 12345) mod 2147483648)%Z.

Definition draw_index (r : Z) (n : nat) : nat := Z.to_nat ((r / 65536) mod Z.of_nat n)%Z.

(** A labelled sample: feature row and class. *)
Definition sample : Type := (list R * Z)%type.

(** A split on one feature: samples whose feature is at most the threshold
    get [st_left], the others [st_right]. *)
Record stump := mk_stump {
  st_feature : nat;
  st_threshold : R;
  st_left : Z;
  st_right : Z
}.

Definition stump_predict (st : stump) (x : list R) : Z :=
  if Rle_dec (nth (st_feature st) x 0) (st_threshold st) then st_left st else st_right st.

Definition list_max (v : R) (l : list R) : R := fold_left Rmax l v.
Definition list_min (v : R) (l : list R) : R := fold_left Rmin l v.

(** The split on feature [j] separating the two classes of a training set
    (threshold halfway between the classes' nearest values, as
    scikit-learn's splitter places it), if there is one. *)
Definition fit_stump (train : list sample) (j : nat) : option stump :=
  match train with
  | [] => None
  | (x0, a) :: _ =>
      let rows_a := filter (fun p => Z.eqb (snd p) a) train in
      let rows_b := filter (fun p => negb (Z.eqb (snd p) a)) train in
      match rows_b with
      | [] => None
      | (x1, b) :: _ =>
          if forallb (fun p => Z.eqb (snd p) b) rows_b then
            let va := map (fun p => nth j (fst p) 0) rows_a in
            let vb := map (fun p => nth j (fst p) 0) rows_b in
            let hi_a := list_max (nth j x0 0) va in
            let lo_a := list_min (nth j x0 0) va in
            let hi_b := list_max (nth j x1 0) vb in
            let lo_b := list_min (nth j x1 0) vb in
            if Rlt_dec hi_a lo_b then Some (mk_stump j ((hi_a + lo_b) / 2) a b)
            else if Rlt_dec hi_b lo_a then Some (mk_stump j ((hi_b + lo_a) / 2) b a)
            else None
          else None
      end
  end.

(** The tied best splits of a training set, in the order of the features. *)
Definition separators (train : list sample) (n_features : nat) : list stump :=
  flat_map (fun j => match fit_stump train j with Some st => [st] | None => [] end)
           (seq 0 n_features).

Definition first_label (train : list sample) : Z :=
  match train with
  | (_, a) :: _ => a
  | [] => 0%Z
  end.

(** The default scorer of a classifier: accuracy on the test fold. *)
Definition accuracy (pred : list R -> Z) (test : list sample) : R :=
  INR (List.length (filter (fun p => Z.eqb (pred (fst p)) (snd p)) test)) /
  INR (List.length test).

(** The draw deciding among [n] tied splits, and the generator after it. *)
Definition fit_draw (model : estimator) (n : nat) (r : Z) : nat * Z :=
  match random_state model with
  | Some seed => (draw_index (lcg_draw seed) n, r)
  | None => (draw_index (lcg_draw r) n, lcg_draw r)
  end.

(** Fit on each training fold, score on its test fold. *)
Fixpoint fold_scores (model : estimator) (n_features : nat)
    (folds : list (list sample * list sample)) (r : Z) : list R * Z :=
  match folds with
  | [] => ([], r)
  | (train, test) :: rest =>
      let cands := separators train n_features in
      let (k, r1) := fit_draw model (List.length cands) r in
      let pred := match nth_error cands k with
                  | Some st => stump_predict st
                  | None => fun _ => first_label train
                  end in
      let (scs, r2) := fold_scores model n_features rest r1 in
      (accuracy pred test :: scs, r2)
  end.

(** [StratifiedKFold]: classes numbered in order of first appearance
    ([y_encoded]), the sorted codes dealt round-robin to the folds
    ([allocation]), and the samples of each class given their folds in
    order ([test_folds]). *)
Fixpoint classes_seen (seen l : list Z) : list Z :=
  match l with
  | [] => rev seen
  | k :: l' => if existsb (Z.eqb k) seen then classes_seen seen l'
               else classes_seen (k :: seen) l'
  end.

Fixpoint index_of (k : Z) (l : list Z) : nat :=
  match l with
  | [] => 0%nat
  | h :: t => if Z.eqb h k then 0%nat else S (index_of k t)
  end.

Fixpoint insert_nat (n : nat) (l : list nat) : list nat :=
  match l with
  | [] => [n]
  | h :: t => if Nat.leb n h then n :: h :: t else h :: insert_nat n t
  end.

Fixpoint sort_nat (l : list nat) : list nat :=
  match l with
  | [] => []
  | h :: t => insert_nat h (sort_nat t)
  end.

Definition y_encoded (ys : list Z) : list nat :=
  let cls := classes_seen [] ys in map (fun k => index_of k cls) ys.

Definition allocation (enc : list nat) (cv i c : nat) : nat :=
  List.length (filter (fun p => Nat.eqb (fst p mod cv) i && Nat.eqb (snd p) c)
                      (combine (seq 0 (List.length enc)) (sort_nat enc))).

Definition test_folds (ys : list Z) (cv : nat) : list nat :=
  let enc := y_encoded ys in
  map (fun n =>
         let c := nth n enc 0%nat in
         nth (count_occ Nat.eq_dec (firstn n enc) c)
             (flat_map (fun i => repeat i (allocation enc cv i c)) (seq 0 cv)) 0%nat)
      (seq 0 (List.length ys)).

(** The (training, test) pairs of the [cv] folds. *)
Definition cv_folds (xs : list (list R)) (ys : list Z) (cv : nat)
    : list (list sample * list sample) :=
  let samples := combine (combine xs ys) (test_folds ys cv) in
  map (fun i => (map fst (filter (fun p => negb (Nat.eqb (snd p) i)) samples),
                 map fst (filter (fun p => Nat.eqb (snd p) i) samples)))
      (seq 0 cv).

(** [cross_val_score(model, X, y, cv=cv)] in this model, each call costing
    one second of processor time. *)
Definition split_oracle : cv_oracle :=
  fun model xs ys cv r =>
    if Nat.ltb cv 2 then
      inl (ValueError "k-fold cross-validation requires at least one train/test split")
    else if negb (Nat.eqb (List.length xs) (List.length ys)) then
      inl (ValueError "Found input variables with inconsistent numbers of samples")
    else if Nat.ltb (List.length ys) cv then
      inl (ValueError "Cannot have number of splits greater than the number of samples")
    else
      let (scores, r') := fold_scores model (List.length (hd [] xs)) (cv_folds xs ys cv) r in
      inr (scores, 1, r').

(** Twelve samples of three features with two classes: feature 0 is the
    class; feature 1 is the class on samples 3-5 and 9-11 and its opposite
    on samples 0-2 and 6-8; feature 2 is constant.  With two stratified
    folds, both features 0 and 1 separate each training fold (a tie), and
    they disagree on every test sample. *)
Definition xs_ties : list (list R) :=
  [[0; 1; 0]; [0; 1; 0]; [0; 1; 0]; [0; 0; 0]; [0; 0; 0]; [0; 0; 0];
   [1; 0; 0]; [1; 0; 0]; [1; 0; 0]; [1; 1; 0]; [1; 1; 0]; [1; 1; 0]].

Definition ys_ties : list Z := [0; 0; 0; 0; 0; 0; 1; 1; 1; 1; 1; 1]%Z.

(** Samples 0-2 and 6-8, and samples 3-5 and 9-11. *)
Definition block_a : list sample :=
  [([0; 1; 0], 0%Z); ([0; 1; 0], 0%Z); ([0; 1; 0], 0%Z);
   ([1; 0; 0], 1%Z); ([1; 0; 0], 1%Z); ([1; 0; 0], 1%Z)].

Definition block_b : list sample :=
  [([0; 0; 0], 0%Z); ([0; 0; 0], 0%Z); ([0; 0; 0], 0%Z);
   ([1; 1; 0], 1%Z); ([1; 1; 0], 1%Z); ([1; 1; 0], 1%Z)].

Definition heap_ties (x : loc) : option pyval :=
  match x with
  | 0%nat => Some (PyMatrix xs_ties)
  | 1%nat => Some (PyLabels ys_ties)
  | _ => None
  end.

Definition state_ties : state := mkState heap_ties 0 0 [] [].

(** ** Arithmetic on DataFrames (the aggregation cell) *)

Fixpoint map2 {A} (f : A -> A -> A) (l1 l2 : list A) : list A :=
  match l1, l2 with
  | x :: l1', y :: l2' => f x y :: map2 f l1' l2'
  | _, _ => []
  end.

Definition row_add (a b : part_l) : part_l :=
  mk_part_l (mean_of_scores a + mean_of_scores b)
            (variance_of_scores a + variance_of_scores b)
            (processing_time a + processing_time b).

Definition row_divide (a : part_l) (k : R) : part_l :=
  mk_part_l (mean_of_scores a / k) (variance_of_scores a / k) (processing_time a / k).

Definition same_labels (f g : frame) : bool :=
  (if list_eq_dec string_dec (index f) (index g) then true else false) &&
  (if list_eq_dec string_dec (columns f) (columns g) then true else false) &&
  Nat.eqb (List.length (data f)) (List.length (data g)).

(** [f + g] for two frames with the same row and column labels, which
    pandas adds cell by cell; frames with other labels are aligned by
    pandas on the union of the labels, outside this model ([None]). *)
Definition frame_add (f g : frame) : option frame :=
  if same_labels f g
  then Some (mk_frame (index f) (columns f) (map2 row_add (data f) (data g)))
  else None.

(** [f.divide(k)] *)
Definition frame_divide (f : frame) (k : R) : frame :=
  mk_frame (index f) (columns f) (map (fun a => row_divide a k) (data f)).

Definition option_bind {A B} (o : option A) (k : A -> option B) : option B :=
  match o with Some a => k a | None => None end.

(** [df_benchmark_total = (df_benchmark_1+df_benchmark_2+df_benchmark_3+df_benchmark_4)]
    followed by [df_benchmark_total.divide(4)]. *)
Definition df_benchmark_total (df1 df2 df3 df4 : frame) : option frame :=
  option_bind (frame_add df1 df2) (fun t12 =>
  option_bind (frame_add t12 df3) (fun t123 =>
  option_bind (frame_add t123 df4) (fun t =>
  Some (frame_divide t 4)))).

(** The same element-wise sum then division by the table count, for any
    non-empty collection of tables. *)
Definition frames_sum (acc : frame) (ts : list frame) : option frame :=
  fold_left (fun oacc t => option_bind oacc (fun a => frame_add a t)) ts (Some acc).

Definition aggregate (t : frame) (ts : list frame) : option frame :=
  option_bind (frames_sum t ts) (fun total =>
  Some (frame_divide total (INR (List.length (t :: ts))))).

(** ** Sorting and comparing the tables (the cells after each benchmark) *)

(** Insertion of a row into rows sorted by decreasing mean score, before
    the rows of equal or smaller mean. *)
Fixpoint insert_desc (r : string * part_l) (l : list (string * part_l))
    : list (string * part_l) :=
  match l with
  | [] => [r]
  | h :: t =>
      if Rle_dec (mean_of_scores (snd h)) (mean_of_scores (snd r))
      then r :: h :: t
      else h :: insert_desc r t
  end.

Fixpoint sort_desc (l : list (string * part_l)) : list (string * part_l) :=
  match l with
  | [] => []
  | x :: t => insert_desc x (sort_desc t)
  end.

(** [df.sort_values(by=['Approx. mean of scores'], ascending=False)]:
    pandas argsorts the reversed column in ascending order and reverses the
    result; numpy's quicksort runs an insertion sort on arrays of at most
    16 elements, so on tables of at most 16 rows (the benchmark tables have
    five) this is a stable sort by decreasing mean (equal means keep their
    order). On larger tables numpy's quicksort partitions and may reorder
    equal means, which this definition does not follow. *)
Definition sort_values_mean_desc (df : frame) : frame :=
  let rows := sort_desc (combine (index df) (data df)) in
  mk_frame (map fst rows) (columns df) (map snd rows).

(** [round(x, 2)] *)
Definition round2 (x : R) : R := IZR (round_half_even (x * 100)) / 100.

(** [scores = df_sorted['Approx. mean of scores']] then
    [perc_inc = round((scores[0]-scores[4])/(scores[4])*100, 2)];
    [None] is the [IndexError] of a table with fewer than five rows. *)
Definition perc_inc (df_sorted : frame) : option R :=
  let scores := map mean_of_scores (data df_sorted) in
  match nth_error scores 0, nth_error scores 4 with
  | Some s0, Some s4 => Some (round2 ((s0 - s4) / s4 * 100))
  | _, _ => None
  end.

(** [np.argmax(line)]: the index of the first maximal entry; [i] is the
    index of the head of [l], [best] and [bv] the best index and value so
    far. *)
Fixpoint argmax_from (l : list R) (i best : nat) (bv : R) : nat :=
  match l with
  | [] => best
  | x :: t => if Rlt_dec bv x then argmax_from t (S i) i x
              else argmax_from t (S i) best bv
  end.

(** [None]: numpy's [ValueError] on an empty sequence. *)
Definition np_argmax (l : list R) : option nat :=
  match l with
  | [] => None
  | x :: t => Some (argmax_from t 1 0 x)
  end.

(** [best_preds = np.asarray([np.argmax(line) for line in preds])] *)
Fixpoint best_preds (preds : list (list R)) : option (list nat) :=
  match preds with
  | [] => Some []
  | line :: rest =>
      option_bind (np_argmax line) (fun k =>
      option_bind (best_preds rest) (fun ks => Some (k :: ks)))
  end.

(** [k] is the index [np.argmax] is documented to return on [l]: the
    first position of a largest entry. *)
Definition first_max (l : list R) (k : nat) : Prop :=
  (k < List.length l)%nat /\
  (forall j, (j < List.length l)%nat -> nth j l 0 <= nth k l 0) /\
  (forall j, (j < k)%nat -> nth j l 0 < nth k l 0).

(** A table returned by some call of [ml_benchmark]. *)
Definition benchmark_output (df : frame) : Prop :=
  exists o X y cv s s', ml_benchmark o X y cv s = (inr df, s').

(** The table of a run of [ml_benchmark], the empty table if it raised. *)
Definition run_table (o : cv_oracle) (X y : loc) (cv : nat) (s : state) : frame :=
  match fst (ml_benchmark o X y cv s) with
  | inr df => df
  | inl _ => mk_frame [] [] []
  end.

(** The rows whose mean score is [x]. *)
Definition has_mean (x : R) (r : string * part_l) : bool :=
  if Req_EM_T (mean_of_scores (snd r)) x then true else false.

(** Rows in descending order of mean score. *)
Definition row_desc (a b : string * part_l) : Prop :=
  mean_of_scores (snd b) <= mean_of_scores (snd a).

(** A benchmark table in the roster's row order, with the best mean score
    not in the first row. *)
Definition sample_frame : frame :=
  mk_frame rows_name columns_name
    [mk_part_l (80/100) (4/100) 1; mk_part_l (85/100) (2/100) 2;
     mk_part_l (90/100) (3/100) 3; mk_part_l (95/100) (2/100) 4;
     mk_part_l (88/100) (1/100) 5].

(** The three cells of a row. *)
Definition cell_projections : list (part_l -> R) :=
  [mean_of_scores; variance_of_scores; processing_time].

(** A computation that leaves the heap (the Python objects) unchanged. *)
Definition preserves_heap {A} (m : M A) : Prop := forall s, heap (snd (m s)) = heap s.

(** * Properties *)

(** ** Lemmas on rounding *)

Lemma Rdiv_le_0_compat (a b : R) : 0 <= a -> 0 < b -> 0 <= a / b.
Proof.
  intros Ha Hb. unfold Rdiv. apply Rmult_le_pos; [exact Ha|].
  left. now apply Rinv_0_lt_compat.
Qed.

Lemma Int_part_bounds (x : R) :
  IZR (Int_part x) <= x /\ x < IZR (Int_part x) + 1.
Proof. destruct (base_Int_part x); lra. Qed.

Lemma round_half_even_bounds (x : R) :
  IZR (round_half_even x) - 1/2 <= x <= IZR (round_half_even x) + 1/2.
Proof.
  unfold round_half_even.
  destruct (Int_part_bounds x) as [H1 H2].
  set (f := Int_part x) in *.
  destruct (Rlt_dec (x - IZR f) (1/2)); [lra|].
  destruct (Rlt_dec (1/2) (x - IZR f)); [rewrite plus_IZR; lra|].
  destruct (Z.even f); [|rewrite plus_IZR]; lra.
Qed.

Lemma round_half_even_low (n : Z) (x : R) :
  IZR n <= x < IZR n + 1/2 -> round_half_even x = n.
Proof.
  intros [H1 H2]. unfold round_half_even.
  assert (Hf : n = Int_part x) by (apply Int_part_spec; lra).
  rewrite <- Hf.
  destruct (Rlt_dec (x - IZR n) (1/2)); [reflexivity | lra].
Qed.

Lemma round_half_even_high (n : Z) (x : R) :
  IZR n + 1/2 < x < IZR n + 1 -> round_half_even x = (n + 1)%Z.
Proof.
  intros [H1 H2]. unfold round_half_even.
  assert (Hf : n = Int_part x) by (apply Int_part_spec; lra).
  rewrite <- Hf.
  destruct (Rlt_dec (x - IZR n) (1/2)); [lra|].
  destruct (Rlt_dec (1/2) (x - IZR n)); [reflexivity | lra].
Qed.

Lemma round_half_even_IZR (n : Z) : round_half_even (IZR n) = n.
Proof. apply round_half_even_low; lra. Qed.

Lemma round_half_even_nonneg (x : R) : 0 <= x -> (0 <= round_half_even x)%Z.
Proof.
  intros Hx. unfold round_half_even.
  destruct (Int_part_bounds x) as [H1 H2].
  assert (Hf : (0 <= Int_part x)%Z).
  { assert (-1 < Int_part x)%Z by (apply lt_IZR; lra). lia. }
  destruct (Rlt_dec _ _); [lia|].
  destruct (Rlt_dec _ _); [lia|].
  destruct (Z.even _); lia.
Qed.

Lemma round_half_even_le (n : Z) (x : R) :
  x <= IZR n -> (round_half_even x <= n)%Z.
Proof.
  intros Hx. unfold round_half_even.
  destruct (Int_part_bounds x) as [H1 H2].
  assert (Hf : (Int_part x <= n)%Z) by (apply le_IZR; lra).
  destruct (Z.eq_dec (Int_part x) n) as [E|E].
  - rewrite E in *. destruct (Rlt_dec (x - IZR n) (1/2)); [lia | lra].
  - destruct (Rlt_dec _ _); [lia|].
    destruct (Rlt_dec _ _); [lia|].
    destruct (Z.even _); lia.
Qed.

Lemma round3_bounds (x : R) : round3 x - 1/2000 <= x <= round3 x + 1/2000.
Proof.
  unfold round3. pose proof (round_half_even_bounds (x * 1000)). lra.
Qed.

Lemma round3_exact (k : Z) : round3 (IZR k / 1000) = IZR k / 1000.
Proof.
  unfold round3. replace (IZR k / 1000 * 1000) with (IZR k) by field.
  now rewrite round_half_even_IZR.
Qed.

Lemma round3_nonneg (x : R) : 0 <= x -> 0 <= round3 x.
Proof.
  intros Hx. unfold round3.
  pose proof (IZR_le _ _ (round_half_even_nonneg (x * 1000) ltac:(lra))).
  apply Rdiv_le_0_compat; lra.
Qed.

Lemma round3_le_1 (x : R) : x <= 1 -> round3 x <= 1.
Proof.
  intros Hx. unfold round3.
  assert (H : (round_half_even (x * 1000) <= 1000)%Z)
    by (apply round_half_even_le; lra).
  apply IZR_le in H. lra.
Qed.

Lemma timedelta_seconds_bounds (x : R) :
  timedelta_seconds x - 1/2000000 <= x <= timedelta_seconds x + 1/2000000.
Proof.
  unfold timedelta_seconds.
  pose proof (round_half_even_bounds (x * 1000000)). lra.
Qed.

Lemma timedelta_seconds_nonneg (x : R) : 0 <= x -> 0 <= timedelta_seconds x.
Proof.
  intros Hx. unfold timedelta_seconds.
  pose proof (IZR_le _ _ (round_half_even_nonneg (x * 1000000) ltac:(lra))).
  apply Rdiv_le_0_compat; lra.
Qed.

(** ** Lemmas on the numpy reductions *)

Lemma np_sum_bounds (l : list R) :
  Forall (fun x => 0 <= x <= 1) l -> 0 <= np_sum l <= INR (List.length l).
Proof.
  unfold np_sum. induction 1 as [|x l Hx _ IH]; cbn [fold_right List.length].
  - simpl. lra.
  - rewrite S_INR. lra.
Qed.

Lemma np_mean_bounds (l : list R) :
  l <> [] -> Forall (fun x => 0 <= x <= 1) l -> 0 <= np_mean l <= 1.
Proof.
  intros Hne Hl. unfold np_mean.
  destruct (np_sum_bounds l Hl) as [H1 H2].
  assert (Hn : 0 < INR (List.length l)).
  { destruct l; [congruence|]. simpl List.length. apply lt_0_INR. lia. }
  split.
  - apply Rdiv_le_0_compat; lra.
  - apply Rmult_le_reg_r with (INR (List.length l)); [lra|].
    unfold Rdiv. rewrite Rmult_assoc, Rinv_l by lra. lra.
Qed.

Lemma np_std_nonneg (l : list R) : 0 <= np_std l.
Proof. apply sqrt_pos. Qed.

(** ** Running [score_and_time] *)

Lemma score_and_time_run (o : cv_oracle) (m : estimator) (X y : loc) (cv : nat)
    (s : state) (xs : list (list R)) (ys : list Z) (scores : list R) (cost : R) (r : Z) :
  heap s X = Some (PyMatrix xs) -> heap s y = Some (PyLabels ys) ->
  o m xs ys cv (np_random s) = inr (scores, cost, r) ->
  score_and_time o m X y cv s =
    (inr (mk_part_l (round3 (np_mean scores)) (round3 (np_std scores * 2))
                    (timedelta_seconds (clock s + cost - clock s))),
     after_cv (record_call (Call m X y cv) s) cost r).
Proof.
  intros HX Hy Ho. unfold score_and_time, bind, process_time, cross_val_score, ret.
  cbn [heap record_call np_random]. rewrite HX, Hy, Ho. reflexivity.
Qed.

Lemma score_and_time_run_inv (o : cv_oracle) (m : estimator) (X y : loc) (cv : nat)
    (s s' : state) (xs : list (list R)) (ys : list Z) (scores : list R) (cost : R)
    (r : Z) (p : part_l) :
  heap s X = Some (PyMatrix xs) -> heap s y = Some (PyLabels ys) ->
  o m xs ys cv (np_random s) = inr (scores, cost, r) ->
  score_and_time o m X y cv s = (inr p, s') ->
  p = mk_part_l (round3 (np_mean scores)) (round3 (np_std scores * 2))
                (timedelta_seconds (clock s' - clock s)) /\
  clock s' = clock s + cost.
Proof.
  intros HX Hy Ho Hrun. rewrite (score_and_time_run o m X y cv s xs ys scores cost r HX Hy Ho) in Hrun.
  injection Hrun as <- <-. cbn. split; reflexivity.
Qed.

Lemma np_std_two_folds : np_std [9/10; 1] = 1/20.
Proof.
  unfold np_std, np_mean, np_sum. cbn [map fold_right List.length].
  match goal with |- sqrt ?a = _ => replace a with (1/20 * (1/20)) by (simpl; field) end.
  apply sqrt_square. lra.
Qed.

Lemma sample_std_two_folds : 7/100 < sample_std [9/10; 1].
Proof.
  unfold sample_std, np_mean, np_sum. cbn [map fold_right List.length].
  match goal with |- _ < sqrt ?a => replace a with (1/200) by (simpl; field) end.
  rewrite <- (sqrt_square (7/100)) by lra.
  apply sqrt_lt_1; lra.
Qed.

(** C1 (as stated): [score_spread] is twice the sample standard deviation
    of the fold scores, rounded to 3 digits.  It is not: with the fold
    scores [0.9; 1.0] the code yields [round(2 * 0.05, 3) = 0.1] (numpy's
    [std] divides by n), while twice the sample standard deviation is
    about [0.141]. *)
Lemma C1_spread_not_sample_std :
  ~ (forall (o : cv_oracle) (m : estimator) (X y : loc) (cv : nat) (s s' : state)
        (xs : list (list R)) (ys : list Z) (scores : list R) (cost : R) (r : Z)
        (p : part_l),
      heap s X = Some (PyMatrix xs) -> heap s y = Some (PyLabels ys) ->
      o m xs ys cv (np_random s) = inr (scores, cost, r) ->
      score_and_time o m X y cv s = (inr p, s') ->
      variance_of_scores p = round3 (2 * sample_std scores)).
Proof.
  intros H.
  set (o := fixed_oracle [9/10; 1] 1).
  specialize (H o model_dt 0%nat 1%nat 2%nat state0
    (snd (score_and_time o model_dt 0%nat 1%nat 2%nat state0))
    [[1]; [2]; [3]; [4]] [0; 0; 1; 1]%Z [9/10; 1] 1 0%Z
    (mk_part_l (round3 (np_mean [9/10; 1])) (round3 (np_std [9/10; 1] * 2))
               (timedelta_seconds (0 + 1 - 0)))).
  rewrite (score_and_time_run o model_dt 0%nat 1%nat 2%nat state0
             [[1]; [2]; [3]; [4]] [0; 0; 1; 1]%Z [9/10; 1] 1 0%Z) in H
    by reflexivity.
  specialize (H eq_refl eq_refl eq_refl eq_refl). cbn [variance_of_scores] in H.
  rewrite np_std_two_folds in H.
  replace (1 / 20 * 2) with (IZR 100 / 1000) in H by (simpl; field).
  rewrite round3_exact in H.
  pose proof sample_std_two_folds as Hs.
  pose proof (round3_bounds (2 * sample_std [9/10; 1])) as Hb.
  lra.
Qed.

(** C1 (amended): [score_spread] is twice numpy's default (population,
    [ddof=0]) standard deviation of the fold scores returned by the
    cross-validation, rounded to 3 digits. *)
Theorem C1_spread_population_std (o : cv_oracle) (m : estimator) (X y : loc)
    (cv : nat) (s s' : state) (xs : list (list R)) (ys : list Z) (scores : list R)
    (cost : R) (r : Z) (p : part_l) :
  heap s X = Some (PyMatrix xs) -> heap s y = Some (PyLabels ys) ->
  o m xs ys cv (np_random s) = inr (scores, cost, r) ->
  score_and_time o m X y cv s = (inr p, s') ->
  variance_of_scores p =
    round3 (2 * sqrt (np_sum (map (fun x => (x - np_mean scores) * (x - np_mean scores)) scores)
                      / INR (List.length scores))).
Proof.
  intros HX Hy Ho Hrun.
  destruct (score_and_time_run_inv o m X y cv s s' xs ys scores cost r p HX Hy Ho Hrun)
    as [-> _].
  cbn [variance_of_scores]. unfold np_std. f_equal. ring.
Qed.

(** Witness of [C1_spread_population_std]: two folds scoring 0.9 and 1.0. *)
Lemma C1_spread_population_std_witness :
  heap state0 0%nat = Some (PyMatrix [[1]; [2]; [3]; [4]]) /\
  heap state0 1%nat = Some (PyLabels [0; 0; 1; 1]%Z) /\
  variance_of_scores
    (mk_part_l (round3 (np_mean [9/10; 1])) (round3 (np_std [9/10; 1] * 2))
               (timedelta_seconds (0 + 1 - 0))) =
    round3 (2 * sqrt (np_sum (map (fun x => (x - np_mean [9/10; 1]) * (x - np_mean [9/10; 1]))
                                  [9/10; 1]) / INR (List.length [9/10; 1]))).
Proof.
  split; [reflexivity|]. split; [reflexivity|].
  apply (C1_spread_population_std (fixed_oracle [9/10; 1] 1) model_dt 0%nat 1%nat 2%nat
           state0 (after_cv (record_call (Call model_dt 0%nat 1%nat 2%nat) state0) 1 0%Z)
           [[1]; [2]; [3]; [4]] [0; 0; 1; 1]%Z [9/10; 1] 1 0%Z);
    reflexivity.
Defined.

(** C4 (as stated): [mean_score] is the rounded arithmetic mean and
    [duration] equals the end timestamp minus the start timestamp.  The
    duration is a [datetime.timedelta], which keeps whole microseconds: a
    cross-validation taking 0.1 microsecond of CPU time is reported as a
    zero duration. *)
Lemma C4_duration_not_exact :
  ~ (forall (o : cv_oracle) (m : estimator) (X y : loc) (cv : nat) (s s' : state)
        (xs : list (list R)) (ys : list Z) (scores : list R) (cost : R) (r : Z)
        (p : part_l),
      heap s X = Some (PyMatrix xs) -> heap s y = Some (PyLabels ys) ->
      o m xs ys cv (np_random s) = inr (scores, cost, r) ->
      score_and_time o m X y cv s = (inr p, s') ->
      mean_of_scores p = round3 (np_mean scores) /\
      processing_time p = clock s' - clock s).
Proof.
  intros H.
  set (o := fixed_oracle [1; 1] (1/10000000)).
  specialize (H o model_dt 0%nat 1%nat 2%nat state0
    (after_cv (record_call (Call model_dt 0%nat 1%nat 2%nat) state0) (1/10000000) 0%Z)
    [[1]; [2]; [3]; [4]] [0; 0; 1; 1]%Z [1; 1] (1/10000000) 0%Z
    (mk_part_l (round3 (np_mean [1; 1])) (round3 (np_std [1; 1] * 2))
               (timedelta_seconds (0 + 1/10000000 - 0)))).
  destruct (H eq_refl eq_refl eq_refl eq_refl) as [_ Hd].
  cbn [processing_time after_cv record_call clock state0] in Hd.
  unfold timedelta_seconds in Hd.
  rewrite (round_half_even_low 0 ((0 + 1 / 10000000 - 0) * 1000000)) in Hd by lra.
  lra.
Qed.

(** C4 (amended): [mean_score] is the arithmetic mean of the fold scores
    returned by the cross-validation, rounded to 3 digits; [duration] is
    the end timestamp minus the start timestamp of [process_time] converted
    to a [timedelta], i.e. rounded to the nearest microsecond (half to
    even), so it lies within half a microsecond of that difference. *)
Theorem C4_mean_and_duration (o : cv_oracle) (m : estimator) (X y : loc)
    (cv : nat) (s s' : state) (xs : list (list R)) (ys : list Z) (scores : list R)
    (cost : R) (r : Z) (p : part_l) :
  heap s X = Some (PyMatrix xs) -> heap s y = Some (PyLabels ys) ->
  o m xs ys cv (np_random s) = inr (scores, cost, r) ->
  score_and_time o m X y cv s = (inr p, s') ->
  mean_of_scores p = round3 (np_sum scores / INR (List.length scores)) /\
  processing_time p = timedelta_seconds (clock s' - clock s) /\
  clock s' - clock s - 1/2000000 <= processing_time p <= clock s' - clock s + 1/2000000.
Proof.
  intros HX Hy Ho Hrun.
  destruct (score_and_time_run_inv o m X y cv s s' xs ys scores cost r p HX Hy Ho Hrun)
    as [-> _].
  cbn [mean_of_scores processing_time].
  split; [reflexivity|]. split; [reflexivity|].
  pose proof (timedelta_seconds_bounds (clock s' - clock s)). lra.
Qed.

(** Witness of [C4_mean_and_duration]. *)
Lemma C4_mean_and_duration_witness :
  heap state0 0%nat = Some (PyMatrix [[1]; [2]; [3]; [4]]) /\
  heap state0 1%nat = Some (PyLabels [0; 0; 1; 1]%Z) /\
  mean_of_scores
    (mk_part_l (round3 (np_mean [9/10; 1])) (round3 (np_std [9/10; 1] * 2))
               (timedelta_seconds (0 + 1 - 0))) =
    round3 (np_sum [9/10; 1] / INR (List.length [9/10; 1])).
Proof.
  split; [reflexivity|]. split; [reflexivity|].
  apply (C4_mean_and_duration (fixed_oracle [9/10; 1] 1) model_dt 0%nat 1%nat 2%nat
           state0 (after_cv (record_call (Call model_dt 0%nat 1%nat 2%nat) state0) 1 0%Z)
           [[1]; [2]; [3]; [4]] [0; 0; 1; 1]%Z [9/10; 1] 1 0%Z);
    reflexivity.
Defined.

(** C5: when the cross-validation returns one score in [0,1] per fold
    ([cv >= 2] folds) and the process clock does not go backwards, the
    triple of [score_and_time] has its mean in [0,1], a non-negative
    spread and a non-negative duration. *)
Theorem C5_result_ranges (o : cv_oracle) (m : estimator) (X y : loc)
    (cv : nat) (s s' : state) (xs : list (list R)) (ys : list Z) (scores : list R)
    (cost : R) (r : Z) (p : part_l) :
  (2 <= cv)%nat ->
  heap s X = Some (PyMatrix xs) -> heap s y = Some (PyLabels ys) ->
  o m xs ys cv (np_random s) = inr (scores, cost, r) ->
  List.length scores = cv ->
  Forall (fun x => 0 <= x <= 1) scores ->
  0 <= cost ->
  score_and_time o m X y cv s = (inr p, s') ->
  0 <= mean_of_scores p <= 1 /\ 0 <= variance_of_scores p /\ 0 <= processing_time p.
Proof.
  intros Hcv HX Hy Ho Hlen Hsc Hcost Hrun.
  destruct (score_and_time_run_inv o m X y cv s s' xs ys scores cost r p HX Hy Ho Hrun)
    as [-> Hclk].
  cbn [mean_of_scores variance_of_scores processing_time].
  assert (Hne : scores <> []) by (intros ->; simpl in Hlen; lia).
  destruct (np_mean_bounds scores Hne Hsc) as [Hm0 Hm1].
  split; [split|split].
  - now apply round3_nonneg.
  - now apply round3_le_1.
  - apply round3_nonneg. pose proof (np_std_nonneg scores). lra.
  - apply timedelta_seconds_nonneg. lra.
Qed.

(** Witness of [C5_result_ranges]. *)
Lemma C5_result_ranges_witness :
  (2 <= 2)%nat /\ Forall (fun x => 0 <= x <= 1) [9/10; 1] /\
  0 <= mean_of_scores
         (mk_part_l (round3 (np_mean [9/10; 1])) (round3 (np_std [9/10; 1] * 2))
                    (timedelta_seconds (0 + 1 - 0))) <= 1.
Proof.
  split; [lia|]. split; [repeat constructor; lra|].
  apply (C5_result_ranges (fixed_oracle [9/10; 1] 1) model_dt 0%nat 1%nat 2%nat
           state0 (after_cv (record_call (Call model_dt 0%nat 1%nat 2%nat) state0) 1 0%Z)
           [[1]; [2]; [3]; [4]] [0; 0; 1; 1]%Z [9/10; 1] 1 0%Z).
  all: try reflexivity.
  all: try lra.
  repeat constructor; lra.
Defined.

(** ** Frame properties: no operation writes to the heap *)

Create HintDb heap_frame.

Lemma ret_preserves {A} (a : A) : preserves_heap (ret a).
Proof. intros s. reflexivity. Qed.

Lemma raise_preserves {A} (e : exn) : preserves_heap (@raise A e).
Proof. intros s. reflexivity. Qed.

Lemma print_preserves (ln : line) : preserves_heap (print ln).
Proof. intros s. reflexivity. Qed.

Lemma load_preserves (x : loc) : preserves_heap (load x).
Proof. intros s. unfold load. destruct (heap s x); reflexivity. Qed.

Lemma py_set_preserves (v : pyval) : preserves_heap (py_set v).
Proof. destruct v as [[|]|]; intros s; reflexivity. Qed.

Lemma process_time_preserves : preserves_heap process_time.
Proof. intros s. reflexivity. Qed.

Lemma DataFrame_preserves (l : list part_l) (idx cols : list string) :
  preserves_heap (DataFrame l idx cols).
Proof.
  intros s. unfold DataFrame.
  destruct (_ && _); reflexivity.
Qed.

Lemma cross_val_score_preserves (o : cv_oracle) (m : estimator) (X y : loc) (cv : nat) :
  preserves_heap (cross_val_score o m X y cv).
Proof.
  intros s. unfold cross_val_score. cbn [heap record_call np_random].
  destruct (heap s X) as [[xs|]|]; try reflexivity.
  destruct (heap s y) as [[|ys]|]; try reflexivity.
  destruct (o m xs ys cv (np_random s)) as [e|[[sc cost] r]]; reflexivity.
Qed.

Lemma bind_preserves {A B} (m : M A) (k : A -> M B) :
  preserves_heap m -> (forall a, preserves_heap (k a)) -> preserves_heap (bind m k).
Proof.
  intros Hm Hk s. unfold bind. specialize (Hm s).
  destruct (m s) as [[e|a] s']; cbn in *; [exact Hm|].
  rewrite Hk. exact Hm.
Qed.

#[local] Hint Resolve ret_preserves raise_preserves print_preserves load_preserves
  py_set_preserves process_time_preserves DataFrame_preserves
  cross_val_score_preserves : heap_frame.

Ltac frame_step :=
  repeat (cbv zeta; apply bind_preserves; [eauto with heap_frame | intros]);
  eauto with heap_frame.

Lemma score_and_time_preserves (o : cv_oracle) (m : estimator) (X y : loc) (cv : nat) :
  preserves_heap (score_and_time o m X y cv).
Proof. unfold score_and_time. frame_step. Qed.

#[local] Hint Resolve score_and_time_preserves : heap_frame.

Lemma mapM_preserves {A B} (f : A -> M B) (l : list A) :
  (forall x, preserves_heap (f x)) -> preserves_heap (mapM f l).
Proof.
  intros Hf. induction l as [|x l IH]; cbn [mapM]; frame_step.
Qed.

Lemma benchmark_preamble_preserves (X y : loc) : preserves_heap (benchmark_preamble X y).
Proof. unfold benchmark_preamble. frame_step. Qed.

Lemma ml_benchmark_preserves (o : cv_oracle) (X y : loc) (cv : nat) :
  preserves_heap (ml_benchmark o X y cv).
Proof. unfold ml_benchmark. frame_step. Qed.

(** C9: a benchmark run leaves the dataset untouched: the heap objects
    (in particular the feature matrix and the label array) after
    [ml_benchmark], and after each [score_and_time], are those before it,
    whether the run returns a table or raises. *)
Theorem C9_dataset_not_mutated (o : cv_oracle) (X y : loc) (cv : nat) (m : estimator)
    (s : state) :
  heap (snd (ml_benchmark o X y cv s)) = heap s /\
  heap (snd (score_and_time o m X y cv s)) = heap s.
Proof.
  split; [apply ml_benchmark_preserves | apply score_and_time_preserves].
Qed.

(** ** [ml_benchmark] is the roster loop *)

Lemma ml_benchmark_roster (o : cv_oracle) (X y : loc) (cv : nat) (s : state) :
  ml_benchmark o X y cv s =
    (benchmark_preamble X y ;;;
     rs <- mapM (fun model => score_and_time o model X y cv) roster ;;
     DataFrame rs rows_name columns_name) s.
Proof.
  unfold ml_benchmark, benchmark_preamble, roster, mapM, bind, ret,
    model_dt, model_rf, model_ada, model_gb, model_xgb.
  cbv beta zeta.
  repeat match goal with
         | |- context [match ?e with (_, _) => _ end] =>
             lazymatch e with
             | DataFrame _ _ _ _ => fail
             | _ => destruct e as [[?|?] ?]
             end
         end;
  try reflexivity.
Qed.

Lemma score_and_time_calls (o : cv_oracle) (m : estimator) (X y : loc) (cv : nat)
    (s : state) :
  calls (snd (score_and_time o m X y cv s)) = (calls s ++ [Call m X y cv])%list.
Proof.
  unfold score_and_time, bind, process_time, cross_val_score, ret.
  cbn [heap record_call np_random calls].
  destruct (heap s X) as [[xs|]|]; try reflexivity.
  destruct (heap s y) as [[|ys]|]; try reflexivity.
  destruct (o m xs ys cv (np_random s)) as [e|[[sc cost] r]]; reflexivity.
Qed.

Lemma score_and_time_fail (o : cv_oracle) (m : estimator) (X y : loc) (cv : nat)
    (s : state) (xs : list (list R)) (ys : list Z) (e : exn) :
  heap s X = Some (PyMatrix xs) -> heap s y = Some (PyLabels ys) ->
  o m xs ys cv (np_random s) = inl e ->
  score_and_time o m X y cv s = (inl e, record_call (Call m X y cv) s).
Proof.
  intros HX Hy Ho. unfold score_and_time, bind, process_time, cross_val_score.
  cbn [heap record_call np_random]. rewrite HX, Hy, Ho. reflexivity.
Qed.

Lemma benchmark_preamble_calls (X y : loc) (s : state) :
  calls (snd (benchmark_preamble X y s)) = calls s.
Proof.
  unfold benchmark_preamble, bind, load, print, py_set, ret, raise.
  destruct (heap s X); [|reflexivity]. cbn.
  destruct (heap s y) as [[[|]|]|]; reflexivity.
Qed.

Lemma benchmark_preamble_ok (X y : loc) (s : state) (xs : list (list R)) (ys : list Z) :
  heap s X = Some (PyMatrix xs) -> heap s y = Some (PyLabels ys) ->
  exists s0, benchmark_preamble X y s = (inr tt, s0) /\ heap s0 = heap s.
Proof.
  intros HX Hy.
  unfold benchmark_preamble, bind, load, print, py_set, ret.
  rewrite HX. cbn. rewrite Hy. cbn.
  eexists. split; reflexivity.
Qed.

Lemma mapM_app {A B} (f : A -> M B) (l1 l2 : list A) (s : state) :
  mapM f (l1 ++ l2) s =
    (r1 <- mapM f l1 ;; r2 <- mapM f l2 ;; ret (r1 ++ r2)%list) s.
Proof.
  revert s. induction l1 as [|x l1 IH]; intros s; cbn [mapM app].
  - unfold bind, ret. destruct (mapM f l2 s) as [[e|r2] s']; reflexivity.
  - specialize (IH). unfold bind, ret in *.
    destruct (f x s) as [[e|y] s1]; cbv beta iota; [reflexivity|].
    rewrite IH.
    destruct (mapM f l1 s1) as [[e|r1] s2]; cbv beta iota; [reflexivity|].
    destruct (mapM f l2 s2) as [[e|r2] s3]; reflexivity.
Qed.

Lemma mapM_score_and_time_ok (o : cv_oracle) (X y : loc) (cv : nat) (l : list estimator)
    (s s' : state) (rs : list part_l) :
  mapM (fun model => score_and_time o model X y cv) l s = (inr rs, s') ->
  calls s' = (calls s ++ map (fun model => Call model X y cv) l)%list /\
  List.length rs = List.length l.
Proof.
  revert s rs. induction l as [|m l IH]; intros s rs H; cbn [mapM] in H.
  - injection H as <- <-. rewrite app_nil_r. split; reflexivity.
  - unfold bind at 1 in H.
    pose proof (score_and_time_calls o m X y cv s) as Hc.
    destruct (score_and_time o m X y cv s) as [[e|r] s1]; [discriminate|].
    unfold bind, ret in H.
    destruct (mapM _ l s1) as [[e|rs1] s2] eqn:E; [discriminate|].
    injection H as <- <-.
    destruct (IH s1 rs1 E) as [IHc IHl]. cbn in Hc.
    rewrite IHc, Hc, <- app_assoc. cbn. split; [reflexivity | now rewrite IHl].
Qed.

Lemma mapM_score_and_time_succeeds (o : cv_oracle) (X y : loc) (cv : nat)
    (xs : list (list R)) (ys : list Z) (l : list estimator) (s : state) :
  heap s X = Some (PyMatrix xs) -> heap s y = Some (PyLabels ys) ->
  (forall m r, In m l -> exists scores cost r', o m xs ys cv r = inr (scores, cost, r')) ->
  exists rs s', mapM (fun model => score_and_time o model X y cv) l s = (inr rs, s').
Proof.
  revert s. induction l as [|m l IH]; intros s HX Hy Ho; cbn [mapM].
  - eexists _, _. reflexivity.
  - destruct (Ho m (np_random s) (or_introl eq_refl)) as (scores & cost & r & Hm).
    unfold bind at 1.
    rewrite (score_and_time_run o m X y cv s xs ys scores cost r HX Hy Hm).
    destruct (IH (after_cv (record_call (Call m X y cv) s) cost r) HX Hy
                (fun m' r' Hin => Ho m' r' (or_intror Hin))) as (rs & s' & E).
    unfold bind, ret. rewrite E. eexists _, _. reflexivity.
Qed.

(** C8: [ml_benchmark] evaluates the five roster entries one after the
    other, each on the state left by the previous one, with the same
    feature and label objects and the same [cv], and builds its table from
    the five results in roster order; after a run that returns a table,
    the external cross-validation has been called exactly once per roster
    entry, in roster order, with those arguments. *)
Theorem C8_sequential_roster (o : cv_oracle) (X y : loc) (cv : nat) (s : state) :
  ml_benchmark o X y cv s =
    (benchmark_preamble X y ;;;
     rs <- mapM (fun model => score_and_time o model X y cv) roster ;;
     DataFrame rs rows_name columns_name) s /\
  match ml_benchmark o X y cv s with
  | (inr df, s') =>
      calls s' = (calls s ++ map (fun model => Call model X y cv) roster)%list
  | (inl _, _) => True
  end.
Proof.
  split; [apply ml_benchmark_roster|].
  rewrite ml_benchmark_roster. unfold bind at 1.
  pose proof (benchmark_preamble_calls X y s) as Hp.
  destruct (benchmark_preamble X y s) as [[e|[]] s0]; [exact I|]. cbn in Hp.
  unfold bind.
  destruct (mapM _ roster s0) as [[e|rs] s1] eqn:E; [exact I|].
  destruct (mapM_score_and_time_ok o X y cv roster s0 s1 rs E) as [Hc _].
  unfold DataFrame. destruct (_ && _); [|exact I].
  cbn. rewrite Hc, Hp. reflexivity.
Qed.

(** C3: when the feature matrix and the label array are in place and the
    cross-validation succeeds for every roster entry, [ml_benchmark]
    returns a table with exactly five rows, labelled by the five
    classifier names (all distinct), and the three columns of the code. *)
Theorem C3_five_rows (o : cv_oracle) (X y : loc) (cv : nat) (s : state)
    (xs : list (list R)) (ys : list Z) :
  heap s X = Some (PyMatrix xs) -> heap s y = Some (PyLabels ys) ->
  (forall m r, In m roster -> exists scores cost r', o m xs ys cv r = inr (scores, cost, r')) ->
  exists df s', ml_benchmark o X y cv s = (inr df, s') /\
    index df = ["DecisionTreeClassifier"; "RandomForestClassifier"; "AdaBoostClassifier";
                "GradientBoostingClassifier"; "XGBoost"] /\
    columns df = ["Approx. mean of scores"; "Approx. variance of scores"; "Processing time"] /\
    List.length (data df) = 5%nat /\
    NoDup (index df).
Proof.
  intros HX Hy Ho.
  destruct (benchmark_preamble_ok X y s xs ys HX Hy) as (s0 & Hp & Hh).
  rewrite <- Hh in HX, Hy.
  destruct (mapM_score_and_time_succeeds o X y cv xs ys roster s0 HX Hy Ho) as (rs & s1 & E).
  destruct (mapM_score_and_time_ok o X y cv roster s0 s1 rs E) as [_ Hlen].
  rewrite ml_benchmark_roster. unfold bind at 1. rewrite Hp.
  unfold bind. rewrite E.
  unfold DataFrame. rewrite Hlen. cbn.
  eexists _, _. split; [reflexivity|].
  cbn. split; [reflexivity|]. split; [reflexivity|]. split; [exact Hlen|].
  repeat constructor; cbn; intuition discriminate.
Qed.

(** Witness of [C3_five_rows]: every cross-validation scores 1. *)
Lemma C3_five_rows_witness :
  exists df s', ml_benchmark (fixed_oracle [1; 1] 1) 0%nat 1%nat 2%nat state0 = (inr df, s') /\
    index df = ["DecisionTreeClassifier"; "RandomForestClassifier"; "AdaBoostClassifier";
                "GradientBoostingClassifier"; "XGBoost"] /\
    columns df = ["Approx. mean of scores"; "Approx. variance of scores"; "Processing time"] /\
    List.length (data df) = 5%nat /\
    NoDup (index df).
Proof.
  apply (C3_five_rows (fixed_oracle [1; 1] 1) 0%nat 1%nat 2%nat state0
           [[1]; [2]; [3]; [4]] [0; 0; 1; 1]%Z); try reflexivity.
  intros m r _. exists [1; 1], 1, r. reflexivity.
Defined.

(** C6: when the cross-validation of a roster entry raises [e] (the
    entries before it and the diagnostic prints having succeeded), the
    exception leaves [ml_benchmark] unchanged: the run returns [e] and no
    table, the failing entry was called once (no retry) and no later
    entry was evaluated. *)
Theorem C6_errors_propagate (o : cv_oracle) (X y : loc) (cv : nat) (s s1 : state)
    (xs : list (list R)) (ys : list Z) (pre post : list estimator) (m : estimator)
    (rs : list part_l) (e : exn) :
  heap s X = Some (PyMatrix xs) -> heap s y = Some (PyLabels ys) ->
  roster = (pre ++ m :: post)%list ->
  (benchmark_preamble X y ;;;
   mapM (fun model => score_and_time o model X y cv) pre) s = (inr rs, s1) ->
  o m xs ys cv (np_random s1) = inl e ->
  fst (ml_benchmark o X y cv s) = inl e /\
  calls (snd (ml_benchmark o X y cv s)) = (calls s1 ++ [Call m X y cv])%list.
Proof.
  intros HX Hy Hr Hpre Ho.
  assert (Hh : heap s1 = heap s).
  { change s1 with (snd (inr rs : exn + list part_l, s1)). rewrite <- Hpre.
    apply bind_preserves; [apply benchmark_preamble_preserves|].
    intros _. apply mapM_preserves. intros. apply score_and_time_preserves. }
  rewrite <- Hh in HX, Hy.
  assert (E : ml_benchmark o X y cv s = (inl e, record_call (Call m X y cv) s1)).
  { rewrite ml_benchmark_roster, Hr.
    unfold bind at 1. unfold bind at 1 in Hpre.
    destruct (benchmark_preamble X y s) as [[e0|[]] s0]; [discriminate|].
    unfold bind at 1. rewrite mapM_app. unfold bind at 1. unfold bind at 1.
    rewrite Hpre. cbn [mapM]. unfold bind at 1. unfold bind at 1.
    rewrite (score_and_time_fail o m X y cv s1 xs ys e HX Hy Ho).
    reflexivity. }
  rewrite E. split; reflexivity.
Qed.

(** Witness of [C6_errors_propagate]: the fourth entry (gradient
    boosting) raises. *)
Lemma C6_errors_propagate_witness :
  fst (ml_benchmark failing_oracle 0%nat 1%nat 2%nat state0) =
    inl (ValueError "n_splits cannot be greater than the number of members in each class") /\
  calls (snd (ml_benchmark failing_oracle 0%nat 1%nat 2%nat state0)) =
    (calls (snd ((benchmark_preamble 0%nat 1%nat ;;;
                  mapM (fun model => score_and_time failing_oracle model 0%nat 1%nat 2%nat)
                       [model_dt; model_rf; model_ada]) state0))
     ++ [Call model_gb 0%nat 1%nat 2%nat])%list.
Proof.
  apply (C6_errors_propagate failing_oracle 0%nat 1%nat 2%nat state0
           (snd ((benchmark_preamble 0%nat 1%nat ;;;
                  mapM (fun model => score_and_time failing_oracle model 0%nat 1%nat 2%nat)
                       [model_dt; model_rf; model_ada]) state0))
           [[1]; [2]; [3]; [4]] [0; 0; 1; 1]%Z [model_dt; model_rf; model_ada] [model_xgb]
           model_gb
           (mk_part_l (round3 (np_mean [1; 1])) (round3 (np_std [1; 1] * 2))
                      (timedelta_seconds (0 + 1 - 0)) ::
            mk_part_l (round3 (np_mean [1; 1])) (round3 (np_std [1; 1] * 2))
                      (timedelta_seconds (0 + 1 + 1 - (0 + 1))) ::
            mk_part_l (round3 (np_mean [1; 1])) (round3 (np_std [1; 1] * 2))
                      (timedelta_seconds (0 + 1 + 1 + 1 - (0 + 1 + 1))) :: []));
    reflexivity.
Defined.

Lemma np_mean_repeat (x : R) (n : nat) : (0 < n)%nat -> np_mean (repeat x n) = x.
Proof.
  intros Hn. unfold np_mean. rewrite repeat_length.
  assert (Hs : np_sum (repeat x n) = INR n * x).
  { unfold np_sum. induction n as [|n IH]; [lia|].
    cbn [repeat fold_right]. destruct n as [|n].
    - cbn. lra.
    - rewrite IH by lia. rewrite (S_INR (S n)). lra. }
  rewrite Hs. field. apply not_0_INR. lia.
Qed.

(** ** The cross-validation model on the data with tied splits *)

Ltac no_R_dec t :=
  lazymatch t with
  | context [Rle_dec _ _] => fail
  | context [Rlt_dec _ _] => fail
  | _ => idtac
  end.

(** Decide the comparisons of real constants left by a computation, the
    innermost first, closing the branches [lra] refutes. *)
Ltac decide_R :=
  repeat (match goal with
          | |- context [Rle_dec ?a ?b] =>
              no_R_dec a; no_R_dec b; destruct (Rle_dec a b); try (exfalso; lra)
          | |- context [Rlt_dec ?a ?b] =>
              no_R_dec a; no_R_dec b; destruct (Rlt_dec a b); try (exfalso; lra)
          end; cbv beta iota zeta).

Lemma fold_scores_seeded (model : estimator) (nf : nat)
    (folds : list (list sample * list sample)) (r1 r2 seed : Z) :
  random_state model = Some seed ->
  fst (fold_scores model nf folds r1) = fst (fold_scores model nf folds r2).
Proof.
  intros Hs. revert r1 r2.
  induction folds as [|[train test] rest IH]; intros r1 r2; [reflexivity|].
  cbn [fold_scores]. unfold fit_draw. rewrite Hs.
  specialize (IH r1 r2).
  destruct (fold_scores model nf rest r1) as [sc1 q1].
  destruct (fold_scores model nf rest r2) as [sc2 q2].
  cbn in IH |- *. rewrite IH. reflexivity.
Qed.

Lemma split_oracle_seed_respecting : seed_respecting split_oracle.
Proof.
  intros model xs ys cv r1 r2 seed Hs. unfold split_oracle.
  destruct (Nat.ltb cv 2); [reflexivity|].
  destruct (negb _); [reflexivity|].
  destruct (Nat.ltb (List.length ys) cv); [reflexivity|].
  pose proof (fold_scores_seeded model (List.length (hd [] xs)) (cv_folds xs ys cv)
                r1 r2 seed Hs) as H.
  destruct (fold_scores _ _ _ r1), (fold_scores _ _ _ r2). exact H.
Qed.

Lemma draw_index_lt (r : Z) (n : nat) : (0 < n)%nat -> (draw_index r n < n)%nat.
Proof.
  intros Hn. unfold draw_index.
  pose proof (Z.mod_pos_bound (r / 65536) (Z.of_nat n) ltac:(lia)). lia.
Qed.

Lemma fit_draw_lt (model : estimator) (n : nat) (r : Z) :
  (0 < n)%nat -> (fst (fit_draw model n r) < n)%nat.
Proof.
  intros Hn. unfold fit_draw.
  destruct (random_state model); apply draw_index_lt; exact Hn.
Qed.

(** The two stratified folds of the data: samples 0-2 and 6-8 are tested
    first, samples 3-5 and 9-11 second. *)
Lemma cv_folds_ties :
  cv_folds xs_ties ys_ties 2 = [(block_b, block_a); (block_a, block_b)].
Proof. reflexivity. Qed.

(** Features 0 and 1 both separate each training fold. *)
Lemma separators_block_b :
  separators block_b 3 = [mk_stump 0 ((0 + 1) / 2) 0 1; mk_stump 1 ((0 + 1) / 2) 0 1].
Proof.
  cbv -[Rle_dec Rlt_dec Rplus Rdiv IZR]. decide_R. reflexivity.
Qed.

Lemma separators_block_a :
  separators block_a 3 = [mk_stump 0 ((0 + 1) / 2) 0 1; mk_stump 1 ((0 + 1) / 2) 1 0].
Proof.
  cbv -[Rle_dec Rlt_dec Rplus Rdiv IZR]. decide_R. reflexivity.
Qed.

Lemma accuracy_6_6 : INR 6 / INR 6 = 1.
Proof. cbn [INR]. field; lra. Qed.

Lemma accuracy_0_6 : INR 0 / INR 6 = 0.
Proof. cbn [INR]. field; lra. Qed.

Lemma accuracy_f0_block_a :
  accuracy (stump_predict (mk_stump 0 ((0 + 1) / 2) 0 1)) block_a = 1.
Proof.
  cbv -[Rle_dec Rlt_dec Rplus Rdiv IZR INR]. decide_R. exact accuracy_6_6.
Qed.

Lemma accuracy_f1_block_a :
  accuracy (stump_predict (mk_stump 1 ((0 + 1) / 2) 0 1)) block_a = 0.
Proof.
  cbv -[Rle_dec Rlt_dec Rplus Rdiv IZR INR]. decide_R. exact accuracy_0_6.
Qed.

Lemma accuracy_f0_block_b :
  accuracy (stump_predict (mk_stump 0 ((0 + 1) / 2) 0 1)) block_b = 1.
Proof.
  cbv -[Rle_dec Rlt_dec Rplus Rdiv IZR INR]. decide_R. exact accuracy_6_6.
Qed.

Lemma accuracy_f1_block_b :
  accuracy (stump_predict (mk_stump 1 ((0 + 1) / 2) 1 0)) block_b = 0.
Proof.
  cbv -[Rle_dec Rlt_dec Rplus Rdiv IZR INR]. decide_R. exact accuracy_0_6.
Qed.

(** On the data with tied splits, each fold scores 1 when its draw picks
    feature 0 and 0 when it picks feature 1. *)
Lemma split_oracle_ties (model : estimator) (r : Z) :
  split_oracle model xs_ties ys_ties 2%nat r =
  (let (k1, r1) := fit_draw model 2 r in
   let (k2, r2) := fit_draw model 2 r1 in
   inr ([if Nat.eqb k1 0 then 1 else 0; if Nat.eqb k2 0 then 1 else 0], 1, r2)).
Proof.
  unfold split_oracle.
  change (List.length xs_ties) with 12%nat. change (List.length ys_ties) with 12%nat.
  change (List.length (hd [] xs_ties)) with 3%nat.
  cbn [Nat.ltb Nat.leb Nat.eqb negb].
  rewrite cv_folds_ties. cbn [fold_scores].
  rewrite separators_block_a, separators_block_b. cbn [List.length].
  pose proof (fit_draw_lt model 2 r ltac:(lia)) as H1.
  destruct (fit_draw model 2 r) as [k1 r1]. cbn [fst] in H1.
  pose proof (fit_draw_lt model 2 r1 ltac:(lia)) as H2.
  destruct (fit_draw model 2 r1) as [k2 r2]. cbn [fst] in H2.
  destruct k1 as [|[|k1]]; [| |lia]; destruct k2 as [|[|k2]]; [| | lia| | |lia];
    cbn [nth_error Nat.eqb];
    rewrite ?accuracy_f0_block_a, ?accuracy_f1_block_a, ?accuracy_f0_block_b,
      ?accuracy_f1_block_b; reflexivity.
Qed.

(** C2 (code_bug): the gradient-boosting entry of the roster is built
    without [random_state], unlike the four others.  On twelve samples
    whose two stratified folds can each be split equally well on feature 0
    or on feature 1 (a tie broken by the estimator's random draws), with a
    cross-validation that honours seeds but draws from numpy's global
    generator for an unseeded estimator, two successive calls of
    [ml_benchmark] on the same data give different mean scores for the
    "GradientBoostingClassifier" row: 1 in the first call, 0.5 in the
    second. *)
Theorem C2_gradient_boosting_unseeded :
  random_state model_gb = None /\
  (forall m, In m roster -> m <> model_gb -> exists seed, random_state m = Some seed) /\
  seed_respecting split_oracle /\
  Forall (fun f => List.length (separators (fst f) 3) = 2%nat) (cv_folds xs_ties ys_ties 2) /\
  exists df1 df2 s',
    ml_benchmark_twice split_oracle 0%nat 1%nat 2%nat state_ties = (inr (df1, df2), s') /\
    nth 3 (index df1) "" = "GradientBoostingClassifier" /\
    nth 3 (index df2) "" = "GradientBoostingClassifier" /\
    mean_of_scores (nth 3 (data df1) (mk_part_l 0 0 0)) = 1 /\
    mean_of_scores (nth 3 (data df2) (mk_part_l 0 0 0)) = 1 / 2.
Proof.
  split; [reflexivity|]. split.
  { intros m Hin Hne. cbn in Hin.
    destruct Hin as [<-|[<-|[<-|[<-|[<-|[]]]]]]; try (eexists; reflexivity).
    contradiction. }
  split; [exact split_oracle_seed_respecting|].
  split.
  { rewrite cv_folds_ties.
    apply Forall_cons; [cbn [fst]; rewrite separators_block_b; reflexivity|].
    apply Forall_cons; [cbn [fst]; rewrite separators_block_a; reflexivity|].
    apply Forall_nil. }
  unfold ml_benchmark_twice.
  cbv -[Rplus Rminus Rmult Rdiv Rinv Ropp IZR INR sqrt round3 np_mean np_std
        timedelta_seconds split_oracle xs_ties ys_ties].
  repeat (rewrite split_oracle_ties;
          cbv -[Rplus Rminus Rmult Rdiv Rinv Ropp IZR INR sqrt round3 np_mean np_std
                timedelta_seconds split_oracle xs_ties ys_ties]).
  eexists _, _, _. split; [reflexivity|].
  split; [reflexivity|]. split; [reflexivity|].
  change [1; 1] with (repeat 1 2). rewrite np_mean_repeat by lia.
  replace (np_mean [1; 0]) with (IZR 500 / 1000)
    by (unfold np_mean, np_sum; cbn [fold_right List.length INR]; field).
  replace 1 with (IZR 1000 / 1000) by (field_simplify; lra).
  rewrite !round3_exact. split; field.
Qed.

(** ** Aggregation of benchmark tables *)

Lemma length_map2 {A} (f : A -> A -> A) (l1 l2 : list A) :
  List.length l1 = List.length l2 -> List.length (map2 f l1 l2) = List.length l1.
Proof.
  revert l2. induction l1 as [|x l1 IH]; intros [|y l2] H; cbn in *; try lia.
  f_equal. apply IH. lia.
Qed.

Lemma nth_map2 {A} (f : A -> A -> A) (l1 l2 : list A) (i : nat) (d : A) :
  (i < List.length l1)%nat -> List.length l1 = List.length l2 ->
  nth i (map2 f l1 l2) d = f (nth i l1 d) (nth i l2 d).
Proof.
  revert l2 i. induction l1 as [|x l1 IH]; intros [|y l2] i Hi H; cbn in *; try lia.
  destruct i as [|i]; [reflexivity|]. apply IH; lia.
Qed.

Lemma nth_map_lt {A B} (f : A -> B) (l : list A) (i : nat) (d : A) (d' : B) :
  (i < List.length l)%nat -> nth i (map f l) d' = f (nth i l d).
Proof.
  intros Hi. rewrite (nth_indep _ d' (f d)) by (rewrite length_map; exact Hi).
  apply map_nth.
Qed.

Lemma projection_add (p : part_l -> R) (a b : part_l) :
  In p cell_projections -> p (row_add a b) = p a + p b.
Proof. intros [<-|[<-|[<-|[]]]]; reflexivity. Qed.

Lemma projection_divide (p : part_l -> R) (a : part_l) (k : R) :
  In p cell_projections -> p (row_divide a k) = p a / k.
Proof. intros [<-|[<-|[<-|[]]]]; reflexivity. Qed.

Lemma same_labels_spec (f g : frame) :
  same_labels f g = true ->
  index f = index g /\ columns f = columns g /\ List.length (data f) = List.length (data g).
Proof.
  unfold same_labels.
  destruct (list_eq_dec string_dec (index f) (index g)); [|discriminate].
  destruct (list_eq_dec string_dec (columns f) (columns g)); [|discriminate].
  cbn. intros H. apply Nat.eqb_eq in H. auto.
Qed.

Lemma same_labels_ext (f f' g : frame) :
  index f = index f' -> columns f = columns f' ->
  List.length (data f) = List.length (data f') ->
  same_labels f g = same_labels f' g.
Proof. intros Hi Hc Hl. unfold same_labels. now rewrite Hi, Hc, Hl. Qed.

Lemma frames_sum_cells (acc : frame) (ts : list frame) (d : part_l) :
  Forall (fun u => same_labels acc u = true) ts ->
  exists tot, frames_sum acc ts = Some tot /\
    index tot = index acc /\ columns tot = columns acc /\
    List.length (data tot) = List.length (data acc) /\
    forall i p, In p cell_projections -> (i < List.length (data acc))%nat ->
      p (nth i (data tot) d) =
        p (nth i (data acc) d) + np_sum (map (fun u => p (nth i (data u) d)) ts).
Proof.
  revert acc. induction ts as [|t ts IH]; intros acc Hall.
  - exists acc. repeat split; try reflexivity.
    intros i p _ _. cbn. lra.
  - inversion Hall as [|? ? Ht Hts]; subst.
    destruct (same_labels_spec acc t Ht) as (Hi & Hc & Hl).
    set (acc' := mk_frame (index acc) (columns acc) (map2 row_add (data acc) (data t))).
    assert (Hadd : frame_add acc t = Some acc') by (unfold frame_add; now rewrite Ht).
    unfold frames_sum. cbn [fold_left option_bind]. rewrite Hadd. fold (frames_sum acc' ts).
    assert (Hl' : List.length (data acc') = List.length (data acc))
      by (apply length_map2; exact Hl).
    destruct (IH acc') as (tot & Htot & Hi' & Hc' & Hlen' & Hcell).
    { eapply Forall_impl; [|exact Hts]. intros u Hu.
      rewrite <- Hu. apply same_labels_ext; auto. }
    exists tot. split; [exact Htot|].
    split; [exact Hi'|]. split; [exact Hc'|]. split; [congruence|].
    intros i p Hp Hlt. unfold acc' in Hcell, Hl'. cbn [data] in Hcell, Hl'.
    rewrite Hcell by first [exact Hp | lia]. rewrite nth_map2 by lia.
    rewrite projection_add by exact Hp. cbn [map np_sum fold_right].
    unfold np_sum. lra.
Qed.

Lemma aggregate_cells (t : frame) (ts : list frame) (d : part_l) :
  Forall (fun u => same_labels t u = true) ts ->
  exists avg, aggregate t ts = Some avg /\
     index avg = index t /\ columns avg = columns t /\
     List.length (data avg) = List.length (data t) /\
     forall i p, In p cell_projections -> (i < List.length (data t))%nat ->
       p (nth i (data avg) d) = np_mean (map (fun u => p (nth i (data u) d)) (t :: ts)).
Proof.
  intros Hall.
  destruct (frames_sum_cells t ts d Hall) as (tot & Htot & Hi & Hc & Hl & Hcell).
  exists (frame_divide tot (INR (List.length (t :: ts)))).
  unfold aggregate. rewrite Htot. cbn [option_bind].
  split; [reflexivity|]. cbn [frame_divide index columns data].
  split; [exact Hi|]. split; [exact Hc|]. split; [now rewrite length_map|].
  intros i p Hp Hlt.
  rewrite (nth_map_lt (fun a => row_divide a (INR (List.length (t :: ts)))) _ _ d) by lia.
  rewrite projection_divide by exact Hp.
  rewrite Hcell by assumption.
  unfold np_mean. rewrite length_map. reflexivity.
Qed.

Lemma df_benchmark_total_aggregate (t1 t2 t3 t4 : frame) :
  df_benchmark_total t1 t2 t3 t4 = aggregate t1 [t2; t3; t4].
Proof.
  unfold df_benchmark_total, aggregate, frames_sum.
  cbn [fold_left option_bind].
  destruct (frame_add t1 t2) as [a|]; cbn [option_bind]; [|reflexivity].
  destruct (frame_add a t3) as [b|]; cbn [option_bind]; [|reflexivity].
  destruct (frame_add b t4) as [c|]; cbn [option_bind]; [|reflexivity].
  do 2 f_equal. cbn. lra.
Qed.

(** C7: summing benchmark tables with the same row and column labels
    element-wise and dividing by the number of tables gives, in every cell,
    the arithmetic mean of the corresponding cells of the tables; the
    notebook's [df_benchmark_total] is this aggregate of its four tables. *)
Theorem C7_aggregate_is_cellwise_mean (t : frame) (ts : list frame) (d : part_l) :
  Forall (fun u => same_labels t u = true) ts ->
  (exists avg, aggregate t ts = Some avg /\
     index avg = index t /\ columns avg = columns t /\
     List.length (data avg) = List.length (data t) /\
     forall i p, In p cell_projections -> (i < List.length (data t))%nat ->
       p (nth i (data avg) d) = np_mean (map (fun u => p (nth i (data u) d)) (t :: ts))) /\
  (forall t1 t2 t3 t4, df_benchmark_total t1 t2 t3 t4 = aggregate t1 [t2; t3; t4]).
Proof.
  intros Hall. split; [now apply aggregate_cells | apply df_benchmark_total_aggregate].
Qed.

(** Witness of [C7_aggregate_is_cellwise_mean]: one classifier scoring
    0.90 on one dataset and 0.96 on another averages 0.93. *)
Lemma C7_aggregate_is_cellwise_mean_witness :
  Forall (fun u => same_labels (mk_frame ["DecisionTreeClassifier"] columns_name
                                          [mk_part_l (90/100) (2/100) 1]) u = true)
         [mk_frame ["DecisionTreeClassifier"] columns_name [mk_part_l (96/100) (4/100) 3]] /\
  exists avg,
    aggregate (mk_frame ["DecisionTreeClassifier"] columns_name [mk_part_l (90/100) (2/100) 1])
              [mk_frame ["DecisionTreeClassifier"] columns_name [mk_part_l (96/100) (4/100) 3]]
      = Some avg /\
    mean_of_scores (nth 0 (data avg) (mk_part_l 0 0 0)) = 93/100.
Proof.
  assert (H : Forall (fun u => same_labels (mk_frame ["DecisionTreeClassifier"] columns_name
                                          [mk_part_l (90/100) (2/100) 1]) u = true)
         [mk_frame ["DecisionTreeClassifier"] columns_name [mk_part_l (96/100) (4/100) 3]])
    by (repeat constructor).
  split; [exact H|].
  destruct (proj1 (C7_aggregate_is_cellwise_mean _ _ (mk_part_l 0 0 0) H))
    as (avg & Hagg & _ & _ & _ & Hcell).
  exists avg. split; [exact Hagg|].
  rewrite (Hcell 0%nat mean_of_scores (or_introl eq_refl) ltac:(cbn; lia)).
  unfold np_mean, np_sum. cbn. field.
Defined.


Lemma Forall2_map_eq {A B C} (f : A -> C) (g : B -> C) (l1 : list A) (l2 : list B) :
  Forall2 (fun a b => f a = g b) l1 l2 -> map f l1 = map g l2.
Proof. induction 1; cbn; congruence. Qed.

(** The tables of two datasets whose fold scores average 0.0006 and 0 for
    the decision tree: [score_and_time] stores [round(0.0006, 3) = 0.001]
    and [0.0]. *)
Lemma rounded_example :
  round3 (np_mean [6/10000; 6/10000]) = 1/1000 /\ round3 (np_mean [0; 0]) = 0 /\
  round3 (np_mean [np_mean [6/10000; 6/10000]; np_mean [0; 0]]) = 0.
Proof.
  assert (E1 : np_mean [6/10000; 6/10000] = 6/10000)
    by (unfold np_mean, np_sum; cbn; field).
  assert (E2 : np_mean [0; 0] = 0) by (unfold np_mean, np_sum; cbn; field).
  rewrite E1, E2. unfold round3.
  assert (E3 : np_mean [6/10000; 0] = 3/10000) by (unfold np_mean, np_sum; cbn; field).
  rewrite E3.
  rewrite (round_half_even_high 0 (6/10000 * 1000)) by lra.
  rewrite (round_half_even_low 0 (0 * 1000)) by lra.
  rewrite (round_half_even_low 0 (3/10000 * 1000)) by lra.
  repeat split; cbn; field.
Qed.

(** C10: [score_and_time] rounds before the tables are stored, so a cell
    of the cross-dataset aggregate is the arithmetic mean of the rounded
    per-dataset values (whatever statistic was rounded); and this differs
    in general from the rounded mean of the raw values: fold scores
    averaging 0.0006 on one dataset and 0 on another aggregate to 0.0005,
    while the rounded mean of the raw means is 0. *)
Theorem C10_aggregate_of_rounded_values :
  (forall (t : frame) (ts : list frame) (i : nat) (p : part_l -> R)
          (stat : list R -> R) (raw : list (list R)) (d : part_l),
     Forall (fun u => same_labels t u = true) ts ->
     In p cell_projections -> (i < List.length (data t))%nat ->
     Forall2 (fun u S => p (nth i (data u) d) = round3 (stat S)) (t :: ts) raw ->
     exists avg, aggregate t ts = Some avg /\
       p (nth i (data avg) d) = np_mean (map (fun S => round3 (stat S)) raw)) /\
  (exists (t : frame) (ts : list frame) (raw : list (list R)) (avg : frame),
     Forall (fun u => same_labels t u = true) ts /\
     Forall2 (fun u S => mean_of_scores (nth 0 (data u) (mk_part_l 0 0 0)) = round3 (np_mean S))
             (t :: ts) raw /\
     aggregate t ts = Some avg /\
     mean_of_scores (nth 0 (data avg) (mk_part_l 0 0 0)) <> round3 (np_mean (map np_mean raw))).
Proof.
  split.
  - intros t ts i p stat raw d Hall Hp Hi H2.
    destruct (aggregate_cells t ts d Hall) as (avg & Hagg & _ & _ & _ & Hcell).
    exists avg. split; [exact Hagg|].
    rewrite Hcell by assumption. f_equal.
    exact (Forall2_map_eq _ (fun S => round3 (stat S)) _ _ H2).
  - destruct rounded_example as (R1 & R2 & R3).
    set (t1 := mk_frame ["DecisionTreeClassifier"] columns_name
                 [mk_part_l (round3 (np_mean [6/10000; 6/10000])) 0 1]).
    set (t2 := mk_frame ["DecisionTreeClassifier"] columns_name
                 [mk_part_l (round3 (np_mean [0; 0])) 0 1]).
    exists t1, [t2], [[6/10000; 6/10000]; [0; 0]].
    eexists. split; [repeat constructor|].
    split; [repeat constructor|].
    split; [reflexivity|].
    cbn [frame_divide data nth map2 map row_divide row_add mean_of_scores t1 t2].
    rewrite R1, R2, R3. cbn. lra.
Qed.

(** Witness of [C10_aggregate_of_rounded_values]: its first part on the
    two datasets above. *)
Lemma C10_aggregate_of_rounded_values_witness :
  exists avg,
    aggregate (mk_frame ["DecisionTreeClassifier"] columns_name
                 [mk_part_l (round3 (np_mean [6/10000; 6/10000])) 0 1])
              [mk_frame ["DecisionTreeClassifier"] columns_name
                 [mk_part_l (round3 (np_mean [0; 0])) 0 1]] = Some avg /\
    mean_of_scores (nth 0 (data avg) (mk_part_l 0 0 0)) =
      np_mean (map (fun S => round3 (np_mean S)) [[6/10000; 6/10000]; [0; 0]]).
Proof.
  apply (proj1 C10_aggregate_of_rounded_values); try (repeat constructor).
Defined.

(** ** Sorting a table by decreasing mean score *)

Lemma insert_desc_perm (r : string * part_l) (l : list (string * part_l)) :
  Permutation (insert_desc r l) (r :: l).
Proof.
  induction l as [|h t IH]; cbn; [reflexivity|].
  destruct (Rle_dec _ _); [reflexivity|].
  rewrite IH. apply perm_swap.
Qed.

Lemma sort_desc_perm (l : list (string * part_l)) : Permutation (sort_desc l) l.
Proof.
  induction l as [|x t IH]; cbn; [reflexivity|].
  rewrite insert_desc_perm. now apply perm_skip.
Qed.

Lemma insert_desc_sorted (r : string * part_l) (l : list (string * part_l)) :
  StronglySorted row_desc l -> StronglySorted row_desc (insert_desc r l).
Proof.
  induction l as [|h t IH]; intros Hs; cbn.
  - repeat constructor.
  - inversion Hs as [|? ? Ht Hh]; subst.
    destruct (Rle_dec (mean_of_scores (snd h)) (mean_of_scores (snd r))) as [Hle|Hlt].
    + constructor; [exact Hs|]. constructor; [exact Hle|].
      eapply Forall_impl; [|exact Hh]. unfold row_desc. intros a Ha. lra.
    + constructor; [now apply IH|].
      eapply Permutation_Forall; [symmetry; apply insert_desc_perm|].
      constructor; [unfold row_desc; lra | exact Hh].
Qed.

Lemma sort_desc_sorted (l : list (string * part_l)) : StronglySorted row_desc (sort_desc l).
Proof.
  induction l as [|x t IH]; cbn; [constructor|]. now apply insert_desc_sorted.
Qed.

Lemma combine_map_fst_snd {A B} (l : list (A * B)) : combine (map fst l) (map snd l) = l.
Proof. induction l as [|[a b] t IH]; cbn; congruence. Qed.

Lemma sorted_map_snd (l : list (string * part_l)) :
  StronglySorted row_desc l ->
  StronglySorted (fun a b => mean_of_scores b <= mean_of_scores a) (map snd l).
Proof.
  induction 1 as [|x t _ IH Hx]; cbn; constructor; [exact IH|].
  apply Forall_map. exact Hx.
Qed.

(** X1: sorting a table by [sort_values(by='Approx. mean of scores',
    ascending=False)] keeps its columns and its (row label, row) pairs,
    only reordered, and puts the mean scores in decreasing order. *)
Theorem X1_sort_values_permutes_and_sorts (df : frame) :
  Permutation (combine (index (sort_values_mean_desc df)) (data (sort_values_mean_desc df)))
              (combine (index df) (data df)) /\
  columns (sort_values_mean_desc df) = columns df /\
  StronglySorted (fun a b => mean_of_scores b <= mean_of_scores a)
                 (data (sort_values_mean_desc df)).
Proof.
  unfold sort_values_mean_desc. cbn [index columns data].
  rewrite combine_map_fst_snd. split; [apply sort_desc_perm|].
  split; [reflexivity|]. apply sorted_map_snd, sort_desc_sorted.
Qed.

Lemma map_snd_combine {A B} (l1 : list A) (l2 : list B) :
  List.length l1 = List.length l2 -> map snd (combine l1 l2) = l2.
Proof.
  revert l2. induction l1 as [|a l1 IH]; intros [|b l2] H; cbn in *; try lia; [reflexivity|].
  f_equal. apply IH. lia.
Qed.

Lemma sort_values_data_perm (df : frame) :
  List.length (index df) = List.length (data df) ->
  Permutation (data (sort_values_mean_desc df)) (data df).
Proof.
  intros Hl. unfold sort_values_mean_desc. cbn [data].
  rewrite <- (map_snd_combine (index df) (data df) Hl) at 2.
  apply Permutation_map, sort_desc_perm.
Qed.

Lemma round2_nonneg (x : R) : 0 <= x -> 0 <= round2 x.
Proof.
  intros Hx. unfold round2.
  pose proof (IZR_le _ _ (round_half_even_nonneg (x * 100) ltac:(lra))).
  apply Rdiv_le_0_compat; lra.
Qed.

(** X2: on a five-row table whose mean scores are positive, the
    [perc_inc] cell run on the sorted table is the percentage increase from
    the lowest to the highest mean score of the table, rounded to 2 digits,
    whichever classifiers those rows belong to; it is non-negative. *)
Theorem X2_perc_inc_lowest_to_highest (df : frame) :
  List.length (index df) = 5%nat -> List.length (data df) = 5%nat ->
  Forall (fun p => 0 < mean_of_scores p) (data df) ->
  exists hi lo,
    In hi (map mean_of_scores (data df)) /\ In lo (map mean_of_scores (data df)) /\
    Forall (fun x => lo <= x <= hi) (map mean_of_scores (data df)) /\
    perc_inc (sort_values_mean_desc df) = Some (round2 ((hi - lo) / lo * 100)) /\
    0 <= round2 ((hi - lo) / lo * 100).
Proof.
  intros Hi Hd Hpos.
  assert (Hp : Permutation (data (sort_values_mean_desc df)) (data df))
    by (apply sort_values_data_perm; lia).
  assert (Hs : StronglySorted (fun a b => mean_of_scores b <= mean_of_scores a)
                 (data (sort_values_mean_desc df))).
  { unfold sort_values_mean_desc. cbn [data]. apply sorted_map_snd, sort_desc_sorted. }
  assert (Hlen : List.length (data (sort_values_mean_desc df)) = 5%nat)
    by (rewrite (Permutation_length Hp); exact Hd).
  destruct (data (sort_values_mean_desc df)) as [|a0 [|a1 [|a2 [|a3 [|a4 [|? ?]]]]]] eqn:E;
    cbn in Hlen; try lia.
  inversion Hs as [|? ? Hs1 F0]; subst.
  inversion Hs1 as [|? ? Hs2 F1]; subst.
  inversion Hs2 as [|? ? Hs3 F2]; subst.
  inversion Hs3 as [|? ? Hs4 F3]; subst.
  repeat match goal with H : Forall _ (_ :: _) |- _ => inversion H; subst; clear H end.
  assert (Hall : Forall (fun x => mean_of_scores a4 <= x <= mean_of_scores a0)
                   (map mean_of_scores (data df))).
  { apply Permutation_Forall with (map mean_of_scores [a0; a1; a2; a3; a4]).
    - now apply Permutation_map.
    - cbn. repeat (apply Forall_cons; [lra|]). apply Forall_nil. }
  assert (Hin : forall a, In a [a0; a1; a2; a3; a4] ->
                  In (mean_of_scores a) (map mean_of_scores (data df))).
  { intros a Ha. apply in_map. eapply Permutation_in; [exact Hp | exact Ha]. }
  exists (mean_of_scores a0), (mean_of_scores a4).
  split; [apply Hin; cbn; tauto|]. split; [apply Hin; cbn; tauto|].
  split; [exact Hall|].
  split; [unfold perc_inc; rewrite E; reflexivity|].
  assert (Hlo : 0 < mean_of_scores a4).
  { rewrite Forall_forall in Hpos. apply Hpos.
    eapply Permutation_in; [exact Hp | cbn; tauto]. }
  apply round2_nonneg.
  apply Rmult_le_pos; [|lra]. apply Rdiv_le_0_compat; lra.
Qed.

Lemma X2_perc_inc_lowest_to_highest_witness :
  List.length (index sample_frame) = 5%nat /\ List.length (data sample_frame) = 5%nat /\
  Forall (fun p => 0 < mean_of_scores p) (data sample_frame) /\
  exists hi lo,
    In hi (map mean_of_scores (data sample_frame)) /\
    In lo (map mean_of_scores (data sample_frame)) /\
    Forall (fun x => lo <= x <= hi) (map mean_of_scores (data sample_frame)) /\
    perc_inc (sort_values_mean_desc sample_frame) = Some (round2 ((hi - lo) / lo * 100)) /\
    0 <= round2 ((hi - lo) / lo * 100).
Proof.
  assert (Hpos : Forall (fun p => 0 < mean_of_scores p) (data sample_frame))
    by (cbn; repeat (apply Forall_cons; [cbn; lra|]); apply Forall_nil).
  split; [reflexivity|]. split; [reflexivity|]. split; [exact Hpos|].
  apply X2_perc_inc_lowest_to_highest; [reflexivity | reflexivity | exact Hpos].
Defined.

(** ** [np.argmax] and [best_preds] *)

Lemma argmax_from_inv (l pre : list R) (best : nat) (bv : R) :
  (best < List.length pre)%nat -> nth best pre 0 = bv ->
  (forall j, (j < List.length pre)%nat -> nth j pre 0 <= bv) ->
  (forall j, (j < best)%nat -> nth j pre 0 < bv) ->
  first_max (pre ++ l) (argmax_from l (List.length pre) best bv).
Proof.
  revert pre best bv.
  induction l as [|x t IH]; intros pre best bv Hb Hbv Hle Hlt; cbn [argmax_from].
  - rewrite app_nil_r. subst bv. repeat split; auto.
  - replace (pre ++ x :: t)%list with ((pre ++ [x]) ++ t)%list
      by (rewrite <- app_assoc; reflexivity).
    assert (Hlen : List.length (pre ++ [x]) = S (List.length pre))
      by (rewrite length_app; cbn; lia).
    assert (Hold : forall j, (j < List.length pre)%nat -> nth j (pre ++ [x]) 0 = nth j pre 0)
      by (intros j Hj; apply app_nth1; exact Hj).
    assert (Hnew : nth (List.length pre) (pre ++ [x]) 0 = x)
      by (rewrite app_nth2, Nat.sub_diag by lia; reflexivity).
    destruct (Rlt_dec bv x) as [Hx|Hx]; rewrite <- Hlen; apply IH.
    + rewrite Hlen; lia.
    + exact Hnew.
    + intros j Hj. rewrite Hlen in Hj.
      destruct (Nat.eq_dec j (List.length pre)) as [->|Hne]; [rewrite Hnew; lra|].
      rewrite Hold by lia. specialize (Hle j ltac:(lia)). lra.
    + intros j Hj. rewrite Hold by lia. specialize (Hle j Hj). lra.
    + rewrite Hlen; lia.
    + rewrite Hold by lia. exact Hbv.
    + intros j Hj. rewrite Hlen in Hj.
      destruct (Nat.eq_dec j (List.length pre)) as [->|Hne]; [rewrite Hnew; lra|].
      rewrite Hold by lia. apply Hle. lia.
    + intros j Hj. rewrite Hold by lia. apply Hlt. exact Hj.
Qed.

Lemma np_argmax_first_max (l : list R) (k : nat) :
  np_argmax l = Some k -> first_max l k.
Proof.
  destruct l as [|x t]; cbn; [discriminate|]. intros H. injection H as <-.
  apply (argmax_from_inv t [x] 0 x); cbn; [lia | reflexivity | |].
  - intros j Hj. destruct j; [lra|lia].
  - intros j Hj. lia.
Qed.

(** X3: [np.argmax] of a row of [preds]: it fails exactly on an empty row;
    otherwise it returns an index of the row holding a largest entry, and
    every entry before it is strictly smaller (ties go to the first). *)
Theorem X3_argmax_first_largest (l : list R) :
  (np_argmax l = None <-> l = []) /\
  (forall k, np_argmax l = Some k -> first_max l k).
Proof.
  split; [|exact (np_argmax_first_max l)].
  destruct l; cbn; split; congruence.
Qed.

(** X4: [best_preds] fails exactly when some row of [preds] is empty;
    otherwise it has one prediction per row, the first position of a
    largest probability of that row. *)
Theorem X4_best_preds_per_row (preds : list (list R)) :
  (best_preds preds = None <-> Exists (fun line => line = []) preds) /\
  (forall ks, best_preds preds = Some ks -> Forall2 first_max preds ks).
Proof.
  induction preds as [|line rest [IHn IHs]]; cbn [best_preds].
  - split.
    + split; [discriminate | intros H; inversion H].
    + intros ks H. injection H as <-. constructor.
  - split.
    + rewrite Exists_cons. destruct (np_argmax line) as [k|] eqn:Ek; cbn.
      * destruct (best_preds rest) as [ks|]; cbn.
        -- split; [discriminate|]. intros [->|Hex]; [discriminate|].
           apply IHn in Hex. discriminate.
        -- split; [intros _; right; apply IHn; reflexivity | reflexivity].
      * split; [intros _; left; destruct line; [reflexivity | discriminate] | reflexivity].
    + intros ks. destruct (np_argmax line) as [k|] eqn:Ek; cbn; [|discriminate].
      destruct (best_preds rest) as [ks'|]; cbn; [|discriminate].
      intros H. injection H as <-. constructor.
      * apply np_argmax_first_max. exact Ek.
      * apply IHs. reflexivity.
Qed.

(** ** What [ml_benchmark] prints *)

Lemma score_and_time_stdout (o : cv_oracle) (m : estimator) (X y : loc) (cv : nat)
    (s : state) :
  stdout (snd (score_and_time o m X y cv s)) = stdout s.
Proof.
  unfold score_and_time, bind, process_time, cross_val_score, ret.
  cbn [heap record_call np_random].
  destruct (heap s X) as [[xs|]|]; try reflexivity.
  destruct (heap s y) as [[|ys]|]; try reflexivity.
  destruct (o m xs ys cv (np_random s)) as [e|[[sc cost] r]]; reflexivity.
Qed.

Lemma mapM_score_and_time_stdout (o : cv_oracle) (X y : loc) (cv : nat)
    (l : list estimator) (s : state) :
  stdout (snd (mapM (fun model => score_and_time o model X y cv) l s)) = stdout s.
Proof.
  revert s. induction l as [|m l IH]; intros s; cbn [mapM]; [reflexivity|].
  unfold bind at 1. pose proof (score_and_time_stdout o m X y cv s) as Hm.
  destruct (score_and_time o m X y cv s) as [[e|r] s1]; cbn in Hm |- *; [exact Hm|].
  unfold bind. specialize (IH s1).
  destruct (mapM (fun model => score_and_time o model X y cv) l s1) as [[e|rs] s2];
    cbn in IH |- *; congruence.
Qed.

Lemma DataFrame_stdout (l : list part_l) (idx cols : list string) (s : state) :
  stdout (snd (DataFrame l idx cols s)) = stdout s.
Proof.
  unfold DataFrame. destruct (_ && _); reflexivity.
Qed.

(** X5: once [X_dataset] holds a feature array and [y_dataset] a label
    array, [ml_benchmark] prints exactly three lines, whatever the
    cross-validations then do: the two shapes, and the labels of
    [y_dataset], each once, in order of first occurrence. *)
Theorem X5_ml_benchmark_prints (o : cv_oracle) (X y : loc) (cv : nat) (s : state)
    (xs : list (list R)) (ys : list Z) :
  heap s X = Some (PyMatrix xs) -> heap s y = Some (PyLabels ys) ->
  stdout (snd (ml_benchmark o X y cv s)) =
    (stdout s ++
     [ShapeLine "The shape of X_dataset is:" [List.length xs; List.length (hd [] xs)];
      ShapeLine "The shape of y_dataset is:" [List.length ys];
      SetLine "The set of values of y_dataset is:" (nodup Z.eq_dec ys)])%list /\
  NoDup (nodup Z.eq_dec ys) /\
  (forall z, In z (nodup Z.eq_dec ys) <-> In z ys).
Proof.
  intros HX Hy.
  split; [|split; [apply NoDup_nodup | intros z; apply nodup_In]].
  rewrite ml_benchmark_roster.
  unfold bind at 1.
  unfold benchmark_preamble, bind, load, print, py_set, ret.
  rewrite HX. cbn [update_stdout heap]. rewrite Hy. cbn [update_stdout stdout heap shape].
  fold (@bind (list part_l) frame).
  set (s0 := update_stdout _ _).
  pose proof (mapM_score_and_time_stdout o X y cv roster s0) as Hm.
  destruct (mapM (fun model => score_and_time o model X y cv) roster s0) as [[e|rs] s1];
    cbn in Hm |- *.
  - rewrite Hm. cbn. rewrite <- !app_assoc. reflexivity.
  - rewrite DataFrame_stdout, Hm. cbn. rewrite <- !app_assoc. reflexivity.
Qed.

Lemma X5_ml_benchmark_prints_witness :
  heap state0 0%nat = Some (PyMatrix [[1]; [2]; [3]; [4]]) /\
  heap state0 1%nat = Some (PyLabels [0; 0; 1; 1]%Z) /\
  stdout (snd (ml_benchmark (fixed_oracle [1; 1] 1) 0%nat 1%nat 2%nat state0)) =
    (stdout state0 ++
     [ShapeLine "The shape of X_dataset is:" [4%nat; 1%nat];
      ShapeLine "The shape of y_dataset is:" [4%nat];
      SetLine "The set of values of y_dataset is:" (nodup Z.eq_dec [0; 0; 1; 1]%Z)])%list /\
  NoDup (nodup Z.eq_dec [0; 0; 1; 1]%Z) /\
  (forall z, In z (nodup Z.eq_dec [0; 0; 1; 1]%Z) <-> In z [0; 0; 1; 1]%Z).
Proof.
  split; [reflexivity|]. split; [reflexivity|].
  apply (X5_ml_benchmark_prints (fixed_oracle [1; 1] 1) 0%nat 1%nat 2%nat state0
           [[1]; [2]; [3]; [4]] [0; 0; 1; 1]%Z); reflexivity.
Defined.

(** X6: [ml_benchmark] raises [TypeError] before any cross-validation when
    [X_dataset] is unbound, when [y_dataset] is unbound, or when
    [y_dataset] is a 2-D array with at least one row (its rows are
    unhashable, so [set] fails); no estimator is fitted and the two datasets
    are left as they were. *)
Theorem X6_type_error_before_any_fit (o : cv_oracle) (X y : loc) (cv : nat) (s : state) :
  heap s X = None \/ heap s y = None \/
  (exists row rows, heap s y = Some (PyMatrix (row :: rows))) ->
  fst (ml_benchmark o X y cv s) = inl TypeError /\
  calls (snd (ml_benchmark o X y cv s)) = calls s /\
  heap (snd (ml_benchmark o X y cv s)) = heap s.
Proof.
  intros Hbad.
  split; [|split; [|apply ml_benchmark_preserves]].
  all: rewrite ml_benchmark_roster; unfold bind at 1;
    unfold benchmark_preamble, bind, load, print, py_set, ret, raise.
  all: destruct (heap s X) as [vX|] eqn:HX;
    [|reflexivity].
  all: destruct Hbad as [Hbad|[Hbad|(row & rows & Hbad)]]; [discriminate| |];
    cbn [update_stdout heap]; rewrite Hbad; reflexivity.
Qed.

Lemma X6_type_error_before_any_fit_witness :
  (heap state0 1%nat = None \/ heap state0 0%nat = None \/
   (exists row rows, heap state0 0%nat = Some (PyMatrix (row :: rows)))) /\
  fst (ml_benchmark (fixed_oracle [1; 1] 1) 1%nat 0%nat 2%nat state0) = inl TypeError /\
  calls (snd (ml_benchmark (fixed_oracle [1; 1] 1) 1%nat 0%nat 2%nat state0)) = calls state0 /\
  heap (snd (ml_benchmark (fixed_oracle [1; 1] 1) 1%nat 0%nat 2%nat state0)) = heap state0.
Proof.
  assert (H : heap state0 1%nat = None \/ heap state0 0%nat = None \/
              (exists row rows, heap state0 0%nat = Some (PyMatrix (row :: rows))))
    by (right; right; exists [1], [[2]; [3]; [4]]; reflexivity).
  split; [exact H|].
  apply (X6_type_error_before_any_fit (fixed_oracle [1; 1] 1) 1%nat 0%nat 2%nat state0 H).
Defined.

(** ** Rows of seeded estimators *)

Lemma score_and_time_ok_oracle (o : cv_oracle) (m : estimator) (X y : loc) (cv : nat)
    (s s' : state) (p : part_l) :
  score_and_time o m X y cv s = (inr p, s') ->
  exists xs ys sc cost r,
    heap s X = Some (PyMatrix xs) /\ heap s y = Some (PyLabels ys) /\
    o m xs ys cv (np_random s) = inr (sc, cost, r) /\
    mean_of_scores p = round3 (np_mean sc) /\
    variance_of_scores p = round3 (np_std sc * 2).
Proof.
  unfold score_and_time, bind, process_time, cross_val_score, ret.
  cbn [heap record_call np_random].
  destruct (heap s X) as [[xs|]|]; try discriminate.
  destruct (heap s y) as [[|ys]|]; try discriminate.
  destruct (o m xs ys cv (np_random s)) as [e|[[sc cost] r]] eqn:Ho; [discriminate|].
  intros H. injection H as <- _.
  exists xs, ys, sc, cost, r. repeat split; first [reflexivity | exact Ho].
Qed.

Lemma seeded_cells_agree (o : cv_oracle) (m : estimator) (X y : loc) (cv : nat)
    (seed : Z) (s1 s2 s1' s2' : state) (p1 p2 : part_l) :
  seed_respecting o -> random_state m = Some seed -> heap s1 = heap s2 ->
  score_and_time o m X y cv s1 = (inr p1, s1') ->
  score_and_time o m X y cv s2 = (inr p2, s2') ->
  mean_of_scores p1 = mean_of_scores p2 /\ variance_of_scores p1 = variance_of_scores p2.
Proof.
  intros Hsr Hseed Hh H1 H2.
  destruct (score_and_time_ok_oracle o m X y cv s1 s1' p1 H1)
    as (xs1 & ys1 & sc1 & c1 & r1 & HX1 & Hy1 & Ho1 & Hm1 & Hv1).
  destruct (score_and_time_ok_oracle o m X y cv s2 s2' p2 H2)
    as (xs2 & ys2 & sc2 & c2 & r2 & HX2 & Hy2 & Ho2 & Hm2 & Hv2).
  rewrite Hh in HX1, Hy1. rewrite HX1 in HX2. rewrite Hy1 in Hy2.
  injection HX2 as <-. injection Hy2 as <-.
  specialize (Hsr m xs1 ys1 cv (np_random s1) (np_random s2) seed Hseed).
  rewrite Ho1, Ho2 in Hsr. subst sc2.
  rewrite Hm1, Hm2, Hv1, Hv2. split; reflexivity.
Qed.

Lemma mapM_score_and_time_steps (o : cv_oracle) (X y : loc) (cv : nat)
    (l : list estimator) (s s' : state) (rs : list part_l) :
  mapM (fun model => score_and_time o model X y cv) l s = (inr rs, s') ->
  Forall2 (fun m p => exists st st', heap st = heap s /\
                        score_and_time o m X y cv st = (inr p, st')) l rs.
Proof.
  revert s s' rs. induction l as [|m l IH]; intros s s' rs H; cbn [mapM] in H.
  - injection H as <- _. constructor.
  - unfold bind at 1 in H.
    pose proof (score_and_time_preserves o m X y cv s) as Hp.
    destruct (score_and_time o m X y cv s) as [[e|p] s1] eqn:E1; [discriminate|].
    cbn in Hp. unfold bind in H.
    destruct (mapM (fun model => score_and_time o model X y cv) l s1) as [[e|ps] s2] eqn:E2;
      [discriminate|].
    unfold ret in H. injection H as <- _.
    constructor.
    + exists s, s1. split; [reflexivity | exact E1].
    + apply IH in E2. eapply Forall2_impl; [|exact E2].
      intros m' p' (st & st' & Hst & Hrun). exists st, st'.
      split; [congruence | exact Hrun].
Qed.

Lemma ml_benchmark_steps (o : cv_oracle) (X y : loc) (cv : nat) (s s' : state) (df : frame) :
  ml_benchmark o X y cv s = (inr df, s') ->
  Forall2 (fun m p => exists st st', heap st = heap s /\
                        score_and_time o m X y cv st = (inr p, st')) roster (data df).
Proof.
  rewrite ml_benchmark_roster. intros H. unfold bind at 1 in H.
  pose proof (benchmark_preamble_preserves X y s) as Hp.
  destruct (benchmark_preamble X y s) as [[e|[]] s0]; [discriminate|].
  cbn in Hp. cbv beta iota in H. unfold bind in H.
  destruct (mapM _ roster s0) as [[e|rs] s1] eqn:E; [discriminate|].
  unfold DataFrame in H. destruct (_ && _); [|discriminate].
  unfold ret in H. injection H as <- _. cbn [data].
  apply mapM_score_and_time_steps in E.
  eapply Forall2_impl; [|exact E].
  intros m p (st & st' & Hst & Hrun). exists st, st'. split; [congruence | exact Hrun].
Qed.

Lemma Forall2_nth_lt {A B} (P : A -> B -> Prop) (l1 : list A) (l2 : list B)
    (i : nat) (d1 : A) (d2 : B) :
  Forall2 P l1 l2 -> (i < List.length l1)%nat -> P (nth i l1 d1) (nth i l2 d2).
Proof.
  intros H. revert i. induction H as [|a b l1 l2 Hab H IH]; intros i Hi; cbn in Hi; [lia|].
  destruct i; cbn; [exact Hab|]. apply IH. lia.
Qed.

(** X7: for a cross-validation that does not depend on numpy's global
    generator once the estimator has a seed, two successful runs of
    [ml_benchmark] on the same datasets agree on the mean and spread cells
    of the rows of the four seeded estimators (DecisionTree, RandomForest,
    AdaBoost, XGBoost), whatever the generator and the clock were. *)
Theorem X7_seeded_rows_reproducible (o : cv_oracle) (X y : loc) (cv : nat)
    (s1 s2 s1' s2' : state) (df1 df2 : frame) :
  seed_respecting o -> heap s1 = heap s2 ->
  ml_benchmark o X y cv s1 = (inr df1, s1') ->
  ml_benchmark o X y cv s2 = (inr df2, s2') ->
  forall i, In i [0; 1; 2; 4]%nat ->
    mean_of_scores (nth i (data df1) (mk_part_l 0 0 0)) =
      mean_of_scores (nth i (data df2) (mk_part_l 0 0 0)) /\
    variance_of_scores (nth i (data df1) (mk_part_l 0 0 0)) =
      variance_of_scores (nth i (data df2) (mk_part_l 0 0 0)).
Proof.
  intros Hsr Hh H1 H2 i Hi.
  apply ml_benchmark_steps in H1. apply ml_benchmark_steps in H2.
  assert (Hlt : (i < List.length roster)%nat)
    by (cbn in Hi |- *; destruct Hi as [<-|[<-|[<-|[<-|[]]]]]; lia).
  destruct (Forall2_nth_lt _ _ _ i model_dt (mk_part_l 0 0 0) H1 Hlt)
    as (st1 & st1' & Hst1 & Hrun1).
  destruct (Forall2_nth_lt _ _ _ i model_dt (mk_part_l 0 0 0) H2 Hlt)
    as (st2 & st2' & Hst2 & Hrun2).
  assert (Hseed : exists seed, random_state (nth i roster model_dt) = Some seed)
    by (cbn in Hi; destruct Hi as [<-|[<-|[<-|[<-|[]]]]]; eexists; reflexivity).
  destruct Hseed as [seed Hseed].
  eapply seeded_cells_agree; [exact Hsr | exact Hseed | | exact Hrun1 | exact Hrun2].
  congruence.
Qed.

Lemma X7_seeded_rows_reproducible_witness :
  exists s1' s2' df1 df2,
    ml_benchmark split_oracle 0%nat 1%nat 2%nat state_ties = (inr df1, s1') /\
    ml_benchmark split_oracle 0%nat 1%nat 2%nat s1' = (inr df2, s2') /\
    seed_respecting split_oracle /\ heap state_ties = heap s1' /\
    forall i, In i [0; 1; 2; 4]%nat ->
      mean_of_scores (nth i (data df1) (mk_part_l 0 0 0)) =
        mean_of_scores (nth i (data df2) (mk_part_l 0 0 0)) /\
      variance_of_scores (nth i (data df1) (mk_part_l 0 0 0)) =
        variance_of_scores (nth i (data df2) (mk_part_l 0 0 0)).
Proof.
  pose proof split_oracle_seed_respecting as Hsr.
  destruct (ml_benchmark split_oracle 0%nat 1%nat 2%nat state_ties) as [[e1|df1] s1'] eqn:E1;
    pose proof E1 as E1';
    cbv -[Rplus Rminus Rmult Rdiv Rinv Ropp IZR INR sqrt round3 np_mean np_std
          timedelta_seconds split_oracle xs_ties ys_ties] in E1';
    repeat (rewrite split_oracle_ties in E1';
            cbv -[Rplus Rminus Rmult Rdiv Rinv Ropp IZR INR sqrt round3 np_mean np_std
                  timedelta_seconds split_oracle xs_ties ys_ties] in E1'); [discriminate|].
  injection E1' as _ Hs1.
  destruct (ml_benchmark split_oracle 0%nat 1%nat 2%nat s1') as [[e2|df2] s2'] eqn:E2;
    pose proof E2 as E2'; rewrite <- Hs1 in E2';
    cbv -[Rplus Rminus Rmult Rdiv Rinv Ropp IZR INR sqrt round3 np_mean np_std
          timedelta_seconds split_oracle xs_ties ys_ties] in E2';
    repeat (rewrite split_oracle_ties in E2';
            cbv -[Rplus Rminus Rmult Rdiv Rinv Ropp IZR INR sqrt round3 np_mean np_std
                  timedelta_seconds split_oracle xs_ties ys_ties] in E2'); [discriminate|].
  assert (Hh : heap state_ties = heap s1') by (rewrite <- Hs1; reflexivity).
  exists s1', s2', df1, df2.
  split; [reflexivity|]. split; [exact E2|]. split; [exact Hsr|]. split; [exact Hh|].
  exact (X7_seeded_rows_reproducible split_oracle 0%nat 1%nat 2%nat state_ties s1' s1' s2'
           df1 df2 Hsr Hh E1 E2).
Defined.

(** ** Aggregating the tables of [ml_benchmark] *)

Lemma same_labels_true (f g : frame) :
  index f = index g -> columns f = columns g ->
  List.length (data f) = List.length (data g) -> same_labels f g = true.
Proof.
  intros Hi Hc Hl. unfold same_labels. rewrite Hi, Hc, Hl.
  destruct (list_eq_dec string_dec (index g) (index g)) as [_|n]; [|contradiction].
  destruct (list_eq_dec string_dec (columns g) (columns g)) as [_|n]; [|contradiction].
  cbn. apply Nat.eqb_refl.
Qed.

Lemma ml_benchmark_ok_labels (o : cv_oracle) (X y : loc) (cv : nat) (s s' : state)
    (df : frame) :
  ml_benchmark o X y cv s = (inr df, s') ->
  index df = rows_name /\ columns df = columns_name /\ List.length (data df) = 5%nat.
Proof.
  rewrite ml_benchmark_roster. intros H. unfold bind at 1 in H.
  destruct (benchmark_preamble X y s) as [[e|[]] s0]; [discriminate|].
  cbv beta iota in H. unfold bind in H.
  destruct (mapM _ roster s0) as [[e|rs] s1] eqn:E; [discriminate|].
  destruct (mapM_score_and_time_ok o X y cv roster s0 s1 rs E) as [_ Hlen].
  unfold DataFrame in H. destruct (_ && _); [|discriminate].
  unfold ret in H. injection H as <- _. cbn. auto.
Qed.

(** X9: the four tables returned by [ml_benchmark] always carry the same
    labels, so [df_benchmark_total] never falls into pandas' label
    alignment: it is a five-row table with the classifier names and the
    three columns, each cell the mean of the four corresponding cells. *)
Theorem X9_total_of_four_benchmarks (df1 df2 df3 df4 : frame) (d : part_l) :
  benchmark_output df1 -> benchmark_output df2 ->
  benchmark_output df3 -> benchmark_output df4 ->
  exists tot, df_benchmark_total df1 df2 df3 df4 = Some tot /\
    index tot = rows_name /\ columns tot = columns_name /\
    List.length (data tot) = 5%nat /\
    forall i p, In p cell_projections -> (i < 5)%nat ->
      p (nth i (data tot) d) =
        (p (nth i (data df1) d) + p (nth i (data df2) d) +
         p (nth i (data df3) d) + p (nth i (data df4) d)) / 4.
Proof.
  intros H1 H2 H3 H4.
  assert (Hl : forall df, benchmark_output df ->
            index df = rows_name /\ columns df = columns_name /\
            List.length (data df) = 5%nat).
  { intros df (o & X & y & cv & s & s' & H). exact (ml_benchmark_ok_labels o X y cv s s' df H). }
  destruct (Hl df1 H1) as (Hi1 & Hc1 & Hn1).
  assert (Hall : Forall (fun u => same_labels df1 u = true) [df2; df3; df4]).
  { assert (Hs : forall u, benchmark_output u -> same_labels df1 u = true)
      by (intros u Hu; destruct (Hl u Hu) as (? & ? & ?); apply same_labels_true; congruence).
    repeat (apply Forall_cons; [apply Hs; assumption|]). apply Forall_nil. }
  destruct (aggregate_cells df1 [df2; df3; df4] d Hall) as (avg & Ha & Hai & Hac & Hal & Hcell).
  exists avg. rewrite df_benchmark_total_aggregate.
  split; [exact Ha|]. split; [congruence|]. split; [congruence|]. split; [congruence|].
  intros i p Hp Hi. rewrite (Hcell i p Hp ltac:(lia)).
  unfold np_mean, np_sum. cbn [fold_right map List.length].
  replace (INR 4) with 4 by (cbn; lra). lra.
Qed.

Lemma X9_total_of_four_benchmarks_witness :
  benchmark_output (run_table (fixed_oracle [1; 1] 1) 0%nat 1%nat 2%nat state0) /\
  benchmark_output (run_table (fixed_oracle [9/10; 1] 1) 0%nat 1%nat 2%nat state0) /\
  benchmark_output (run_table (fixed_oracle [8/10; 1] 1) 0%nat 1%nat 2%nat state0) /\
  benchmark_output (run_table (fixed_oracle [1; 9/10] 2) 0%nat 1%nat 3%nat state0) /\
  exists tot,
    df_benchmark_total (run_table (fixed_oracle [1; 1] 1) 0%nat 1%nat 2%nat state0)
                       (run_table (fixed_oracle [9/10; 1] 1) 0%nat 1%nat 2%nat state0)
                       (run_table (fixed_oracle [8/10; 1] 1) 0%nat 1%nat 2%nat state0)
                       (run_table (fixed_oracle [1; 9/10] 2) 0%nat 1%nat 3%nat state0)
      = Some tot /\
    index tot = rows_name /\ columns tot = columns_name /\
    List.length (data tot) = 5%nat /\
    forall i p, In p cell_projections -> (i < 5)%nat ->
      p (nth i (data tot) (mk_part_l 0 0 0)) =
        (p (nth i (data (run_table (fixed_oracle [1; 1] 1) 0%nat 1%nat 2%nat state0))
              (mk_part_l 0 0 0)) +
         p (nth i (data (run_table (fixed_oracle [9/10; 1] 1) 0%nat 1%nat 2%nat state0))
              (mk_part_l 0 0 0)) +
         p (nth i (data (run_table (fixed_oracle [8/10; 1] 1) 0%nat 1%nat 2%nat state0))
              (mk_part_l 0 0 0)) +
         p (nth i (data (run_table (fixed_oracle [1; 9/10] 2) 0%nat 1%nat 3%nat state0))
              (mk_part_l 0 0 0))) / 4.
Proof.
  assert (Hrun : forall sc c cv, benchmark_output (run_table (fixed_oracle sc c) 0%nat 1%nat cv state0)).
  { intros sc c cv. exists (fixed_oracle sc c), 0%nat, 1%nat, cv, state0.
    eexists. unfold run_table.
    cbv -[Rplus Rminus Rmult Rdiv Rinv Ropp IZR INR sqrt round3 np_mean np_std
          timedelta_seconds]. reflexivity. }
  split; [apply Hrun|]. split; [apply Hrun|]. split; [apply Hrun|]. split; [apply Hrun|].
  apply X9_total_of_four_benchmarks; apply Hrun.
Defined.

(** ** Ties in [sort_values] *)

Lemma sample_frame_small : (List.length (data sample_frame) <= 16)%nat.
Proof. cbv [sample_frame data List.length]. lia. Qed.

Lemma insert_desc_filter (x : R) (r : string * part_l) (l : list (string * part_l)) :
  filter (has_mean x) (insert_desc r l) = filter (has_mean x) (r :: l).
Proof.
  induction l as [|h t IH]; cbn [insert_desc]; [reflexivity|].
  destruct (Rle_dec (mean_of_scores (snd h)) (mean_of_scores (snd r))) as [Hle|Hgt];
    [reflexivity|].
  cbn [filter]. rewrite IH. cbn [filter].
  unfold has_mean.
  destruct (Req_EM_T (mean_of_scores (snd r)) x) as [Er|Nr];
    destruct (Req_EM_T (mean_of_scores (snd h)) x) as [Eh|Nh]; try reflexivity.
  exfalso. apply Hgt. rewrite Er, Eh. apply Rle_refl.
Qed.

Lemma sort_desc_filter (x : R) (l : list (string * part_l)) :
  filter (has_mean x) (sort_desc l) = filter (has_mean x) l.
Proof.
  induction l as [|r l IH]; cbn [sort_desc]; [reflexivity|].
  rewrite insert_desc_filter. cbn [filter]. rewrite IH. reflexivity.
Qed.

(** X10: on a table of at most 16 rows (the benchmark tables have five),
    [sort_values] keeps rows of equal mean score in the order of the table
    (the roster's order for a benchmark table): for every score, the
    labelled rows with that mean come out in the order they went in. *)
Theorem X10_sort_values_ties_keep_order (df : frame) (x : R)
    (Hsmall : (List.length (data df) <= 16)%nat) :
  filter (has_mean x)
    (combine (index (sort_values_mean_desc df)) (data (sort_values_mean_desc df))) =
  filter (has_mean x) (combine (index df) (data df)).
Proof.
  unfold sort_values_mean_desc. cbn [index data].
  rewrite combine_map_fst_snd. apply sort_desc_filter.
Qed.

Lemma X10_sort_values_ties_keep_order_witness :
  (List.length (data sample_frame) <= 16)%nat /\
  filter (has_mean (9/10))
    (combine (index (sort_values_mean_desc sample_frame))
       (data (sort_values_mean_desc sample_frame))) =
  filter (has_mean (9/10)) (combine (index sample_frame) (data sample_frame)).
Proof.
  split; [exact sample_frame_small|].
  exact (X10_sort_values_ties_keep_order sample_frame (9/10) sample_frame_small).
Defined.

Lemma insert_desc_head (r : string * part_l) (l : list (string * part_l)) :
  Forall (row_desc r) l -> insert_desc r l = r :: l.
Proof.
  destruct l as [|h t]; intros H; cbn; [reflexivity|].
  inversion H as [|? ? Hh _]; subst. unfold row_desc in Hh.
  destruct (Rle_dec (mean_of_scores (snd h)) (mean_of_scores (snd r))); [reflexivity|].
  contradiction.
Qed.

Lemma sort_desc_sorted_id (l : list (string * part_l)) :
  StronglySorted row_desc l -> sort_desc l = l.
Proof.
  induction 1 as [|r l Hs IH Hf]; cbn; [reflexivity|].
  rewrite IH. apply insert_desc_head. exact Hf.
Qed.

(** X11: on a table of at most 16 rows, sorting an already sorted table
    by mean score changes nothing: [sort_values] applied to its own result
    gives that result back. *)
Theorem X11_sort_values_idempotent (df : frame)
    (Hsmall : (List.length (data df) <= 16)%nat) :
  sort_values_mean_desc (sort_values_mean_desc df) = sort_values_mean_desc df.
Proof.
  unfold sort_values_mean_desc at 1 2. cbn [index columns data].
  rewrite combine_map_fst_snd, sort_desc_sorted_id by apply sort_desc_sorted.
  reflexivity.
Qed.

Lemma X11_sort_values_idempotent_witness :
  (List.length (data sample_frame) <= 16)%nat /\
  sort_values_mean_desc (sort_values_mean_desc sample_frame) =
  sort_values_mean_desc sample_frame.
Proof.
  split; [exact sample_frame_small|].
  exact (X11_sort_values_idempotent sample_frame sample_frame_small).
Defined.
